(** * serverManager.py: the process hierarchy of the CIS 452 server manager

    A shallow embedding of [src/serverManager.py].  Two processes are
    modelled, each as the source writes it:

    - the Server (pool controller): the body of [create_server] after
      [os.fork()] returned 0, as a small-step machine over the source's
      program points, together with the four signal handlers;
    - the Manager (coordinator): one pass of the command loop of
      [__main__], as a function from the typed line to an outcome.

    System calls are recorded as events in a log; what the operating
    system answers is an input of the step that asks for it: the result
    of [os.fork()], the [ps] view read by the SIGCHLD handler, and
    whether [os.kill], [os.wait] and [os.waitpid] of the Server return
    or raise an OSError, which line 145 catches.  A SIGCHLD handler may
    run inside the loop of the SIGTERM handler, after any of its
    [os.kill] calls.  The other handlers make no system call; each of
    them, and a SIGCHLD handler outside the SIGTERM handler, is one
    transition.  Not modelled: SIGTERM arriving inside the SIGCHLD
    handler, a failing [ps] subprocess, and an [os.wait] that never
    returns.  In the Manager [os.kill] is taken to return; [int()] is a
    parameter of the command loop. *)

From Stdlib Require Import ZArith Ascii String List Bool Lia.
From stdpp Require Import base option list strings gmap.
Import ListNotations.

Local Open Scope string_scope.
Local Open Scope list_scope.
Local Open Scope Z_scope.

(** ** Python primitives used by the source *)

Module Py.

(** [sub in s] on [str]: some suffix of [s] starts with [sub]. *)
Fixpoint contains (sub s : string) : bool :=
  String.prefix sub s ||
  match s with
  | EmptyString => false
  | String _ rest => contains sub rest
  end.

(** [s.split(" ")]: fields between single spaces, empty fields kept. *)
Fixpoint split_space (s : string) : list string :=
  match s with
  | EmptyString => [EmptyString]
  | String ch rest =>
      if Ascii.eqb ch " "%char then EmptyString :: split_space rest
      else match split_space rest with
           | [] => [String ch EmptyString]
           | field :: fields => String ch field :: fields
           end
  end.

(** [not s] on [str]. *)
Definition is_empty (s : string) : bool :=
  match s with EmptyString => true | String _ _ => false end.

(** [l.pop()]: the last element and the list without it; [None] stands
    for the IndexError raised on an empty list. *)
Fixpoint pop {A} (l : list A) : option (list A * A) :=
  match l with
  | [] => None
  | x :: rest =>
      match pop rest with
      | None => Some ([], x)
      | Some (front, y) => Some (x :: front, y)
      end
  end.

(** [l.remove(x)]: drops the first occurrence of [x]. *)
Fixpoint remove (x : Z) (l : list Z) : list Z :=
  match l with
  | [] => []
  | y :: rest => if Z.eqb y x then rest else y :: remove x rest
  end.

(** [x in l] on a list of integers. *)
Definition mem (x : Z) (l : list Z) : bool := existsb (Z.eqb x) l.

(** A decimal reader used to instantiate [int()] on concrete lines:
    an optional sign followed by ASCII digits. *)
Definition digit_of (ch : ascii) : option Z :=
  let n := nat_of_ascii ch in
  if (48 <=? n)%nat && (n <=? 57)%nat then Some (Z.of_nat n - 48) else None.

Fixpoint digits (acc : Z) (s : string) : option Z :=
  match s with
  | EmptyString => Some acc
  | String ch rest =>
      match digit_of ch with
      | Some d => digits (10 * acc + d) rest
      | None => None
      end
  end.

Definition dec_int (s : string) : option Z :=
  match s with
  | EmptyString => None
  | String ch rest =>
      if Ascii.eqb ch "-"%char then
        (if is_empty rest then None else Z.opp <$> digits 0 rest)
      else if Ascii.eqb ch "+"%char then
        (if is_empty rest then None else digits 0 rest)
      else digits 0 s
  end.

(** No character of [s] is a space. *)
Fixpoint no_space (s : string) : bool :=
  match s with
  | EmptyString => true
  | String ch rest => negb (Ascii.eqb ch " "%char) && no_space rest
  end.

End Py.

(** ** Events, messages and operating-system answers *)

Inductive signum := SIGCHLD | SIGUSR1 | SIGUSR2 | SIGTERM | SIGKILL.

Inductive message :=
| MsgStarting (name : string) (shown_first shown_second : Z)
| MsgServerStarted (name : string)
| MsgReplicantStarted (name : string)
| MsgChildTerminated (name : string)
| MsgErrorForking
| MsgServerCreationFailed
| MsgChildStopped (pid : Z)
| MsgMaximumReached
| MsgMinimumReached
| MsgServerTerminated
| MsgIncorrectArguments
| MsgInvalidServerName
| MsgDuplicateServerName
| MsgOutOfRange
| MsgMinimumAboveMaximum
| MsgServerDoesNotExist
| MsgStatus
| MsgUnrecognizedCommand.

(** What a process asks of the operating system, in program order. *)
Inductive event :=
| EFork (returned : Z)            (* os.fork() returned this value here *)
| EForkFailed                     (* os.fork() raised OSError *)
| EKill (pid : Z) (s : signum)    (* os.kill(pid, s) *)
| EKillSelf (s : signum)          (* os.kill(os.getpid(), s) *)
| EWait                           (* os.wait() *)
| EWaitpidNoHang                  (* os.waitpid(-1, os.WNOHANG) *)
| EPrint (m : message)
| EKillRaised (pid : Z) (s : signum) (* os.kill(pid, s) raised OSError *)
| EWaitRaised                     (* os.wait() raised ChildProcessError *)
| EWaitpidRaised.                 (* os.waitpid raised ChildProcessError *)

(** The answer of one [os.fork()] call in the calling process. *)
Inductive fork_result :=
| ForkReturns (pid : Z)
| ForkOSError.

(** The answer of [os.kill], [os.wait] or [os.waitpid]: the call
    returns, or it raises an OSError (ChildProcessError when there is no
    child to wait for, ProcessLookupError when the pid is gone). *)
Inductive answer := Returns | Raises.

Inductive exn := IndexError | ValueError | TypeError | OSError.

Inductive exit_cause :=
| BySignal (s : signum)
| ByException (e : exn).

(** ** The Server process (pool controller)

    The state is the part of the interpreter state that the body of
    [create_server] and the handlers read or write: the module globals,
    the parameter [maximum_number_of_processes], the dispositions of the
    signals, the program point and the log of system calls. *)

Module Server.

(** Disposition of SIGCHLD: untouched, a Python handler, or SIG_IGN. *)
Inductive disposition := SigDefault | SigHandler | SigIgnore.

(** Program points of the loop of lines 60-134. *)
Inductive location :=
| LoopTop                 (* line 60: [while True], handlers registered *)
| GrowTest                (* line 78: [while len <= expected] *)
| SettleTest              (* line 82: [while len == expected: sleep] *)
| SpawnTest               (* lines 88-91: [if len < maximum: fork] *)
| Append (pid2 : Z)       (* line 94: [server_processes.append(pid2)] *)
| ShrinkTest              (* lines 123-126: [while len > expected: pop] *)
| KillPopped (pid : Z)    (* line 129: [os.kill(process_to_remove, SIGKILL)] *)
| WaitPopped              (* lines 132-134: [os.wait()], print *)
| Replicant               (* lines 109-110: the grandchild sleeps forever *)
| Exited (why : exit_cause)
| Caught.                 (* lines 145-146: the OSError was caught and
                             [create_server] returned None in this process *)

Record controller := mkController {
  server_name : string;
  maximum_number_of_processes : Z;
  server_minimum_number : Z;
  server_maximum_number : Z;
  number_of_active_processes : Z;
  server_processes : list Z;
  sigchld : disposition;
  handlers_registered : bool;
  at_ : location;
  log : list event
}.

Definition goto (l : location) (c : controller) : controller :=
  mkController (server_name c) (maximum_number_of_processes c)
    (server_minimum_number c) (server_maximum_number c)
    (number_of_active_processes c) (server_processes c)
    (sigchld c) (handlers_registered c) l (log c).

Definition emit (e : event) (c : controller) : controller :=
  mkController (server_name c) (maximum_number_of_processes c)
    (server_minimum_number c) (server_maximum_number c)
    (number_of_active_processes c) (server_processes c)
    (sigchld c) (handlers_registered c) (at_ c) (log c ++ [e]).

Definition emit_all (es : list event) (c : controller) : controller :=
  mkController (server_name c) (maximum_number_of_processes c)
    (server_minimum_number c) (server_maximum_number c)
    (number_of_active_processes c) (server_processes c)
    (sigchld c) (handlers_registered c) (at_ c) (log c ++ es).

Definition set_processes (ps : list Z) (c : controller) : controller :=
  mkController (server_name c) (maximum_number_of_processes c)
    (server_minimum_number c) (server_maximum_number c)
    (number_of_active_processes c) ps
    (sigchld c) (handlers_registered c) (at_ c) (log c).

Definition set_active (n : Z) (c : controller) : controller :=
  mkController (server_name c) (maximum_number_of_processes c)
    (server_minimum_number c) (server_maximum_number c)
    n (server_processes c)
    (sigchld c) (handlers_registered c) (at_ c) (log c).

Definition set_sigchld (d : disposition) (c : controller) : controller :=
  mkController (server_name c) (maximum_number_of_processes c)
    (server_minimum_number c) (server_maximum_number c)
    (number_of_active_processes c) (server_processes c)
    d (handlers_registered c) (at_ c) (log c).

(** Lines 62-75: the four [signal.signal] calls. *)
Definition register_handlers (c : controller) : controller :=
  mkController (server_name c) (maximum_number_of_processes c)
    (server_minimum_number c) (server_maximum_number c)
    (number_of_active_processes c) (server_processes c)
    SigHandler true (at_ c) (log c).

(** [len(server_processes)] as a Python integer. *)
Definition len (c : controller) : Z := Z.of_nat (length (server_processes c)).

(** The child side of the fork of line 50: lines 51-57.  The child
    inherits the Manager's globals: [number_of_active_processes] was
    set to the minimum at line 414 and [server_processes] is the empty
    list of line 19, which the Manager never changes. *)
Definition start (minimum maximum : Z) (name : string) : controller :=
  mkController name maximum minimum maximum minimum [] SigDefault false
    LoopTop [EPrint (MsgServerStarted name)].

(** One step of the loop; [fk] answers the fork of line 91 when this
    step performs it.  The [os.kill] of line 129 and the [os.wait] of
    line 132 return here; [step_raises] and [step_wait_chld] below are
    the same steps with the other answers. *)
Definition step (fk : fork_result) (c : controller) : controller :=
  match at_ c with
  | LoopTop => goto GrowTest (register_handlers c)
  | GrowTest =>
      if len c <=? number_of_active_processes c
      then goto SettleTest c else goto ShrinkTest c
  | SettleTest =>
      if len c =? number_of_active_processes c
      then c (* time.sleep(10) *)
      else goto SpawnTest c
  | SpawnTest =>
      if len c <? maximum_number_of_processes c then
        match fk with
        | ForkReturns pid2 => goto (Append pid2) (emit (EFork pid2) c)
        | ForkOSError => goto GrowTest (emit EForkFailed c)
        end
      else goto ShrinkTest c
  | Append pid2 =>
      let c' := set_processes (server_processes c ++ [pid2]) c in
      if pid2 =? 0
      then goto Replicant (emit (EPrint (MsgReplicantStarted (server_name c))) c')
      else goto GrowTest c'
  | ShrinkTest =>
      if len c >? number_of_active_processes c then
        match Py.pop (server_processes c) with
        | Some (rest, process_to_remove) =>
            goto (KillPopped process_to_remove) (set_processes rest c)
        | None => goto (Exited (ByException IndexError)) c
        end
      else goto LoopTop c
  | KillPopped process_to_remove =>
      goto WaitPopped (emit (EKill process_to_remove SIGKILL) c)
  | WaitPopped =>
      goto ShrinkTest
        (emit (EPrint (MsgChildTerminated (server_name c))) (emit EWait c))
  | Replicant => c (* time.sleep(10) *)
  | Exited _ => c
  | Caught => c (* back in the command loop this process inherited *)
  end.

(** An OSError raised in the loop of lines 60-134, or in a handler that
    interrupted it, leaves the [try] of line 48: line 146 prints and
    [create_server] returns None in the server process, which keeps its
    handlers.  Raised after that, nothing catches it. *)
Definition raise_OSError (c : controller) : controller :=
  match at_ c with
  | Exited _ => c
  | Caught => goto (Exited (ByException OSError)) c
  | _ => goto Caught (emit (EPrint MsgServerCreationFailed) c)
  end.

(** One step of the loop whose system call raises OSError: [os.kill] of
    line 129 or [os.wait] of line 132.  A raising [os.fork] is
    [step ForkOSError]; the other steps make no system call. *)
Definition step_raises (c : controller) : controller :=
  match at_ c with
  | KillPopped process_to_remove =>
      raise_OSError (emit (EKillRaised process_to_remove SIGKILL) c)
  | WaitPopped => raise_OSError (emit EWaitRaised c)
  | _ => step ForkOSError c
  end.

(** *** Signal handlers *)

(** Lines 194-211. *)
Definition increment_active_processes (c : controller) : controller :=
  if number_of_active_processes c + 1 >? server_maximum_number c
  then emit (EPrint MsgMaximumReached) c
  else set_active (number_of_active_processes c + 1) c.

(** Lines 214-231. *)
Definition decrement_active_processes (c : controller) : controller :=
  if number_of_active_processes c - 1 <? server_minimum_number c
  then emit (EPrint MsgMinimumReached) c
  else set_active (number_of_active_processes c - 1) c.

(** Lines 175-188: [for pid in server_processes] over the list that the
    body itself shrinks.  The iterator is an index [i] into the live
    list; [zombies] are the pids for which [ps -o stat] shows "Z+". *)
Fixpoint scan (zombies : list Z) (fuel i : nat) (c : controller) : controller :=
  match fuel with
  | O => c
  | S fuel' =>
      match server_processes c !! i with
      | None => c
      | Some pid =>
          if Py.mem pid zombies
          then scan zombies fuel' (S i)
                 (set_processes (Py.remove pid (server_processes c))
                    (emit (EPrint (MsgChildStopped pid)) c))
          else scan zombies fuel' (S i) c
      end
  end.

(** Lines 161-191.  The loop runs at most once per stored pid. *)
Definition abnormal_child_exit_handler (zombies : list Z) (c : controller)
  : controller :=
  let c1 := set_sigchld SigIgnore c in
  let c2 := scan zombies (length (server_processes c1)) 0 c1 in
  emit EWaitpidNoHang c2.

(** Lines 161-191 when the [waitpid] of line 191 raises: the scan has
    run, the exception leaves the handler. *)
Definition abnormal_child_exit_handler_raises (zombies : list Z)
    (c : controller) : controller :=
  let c1 := set_sigchld SigIgnore c in
  let c2 := scan zombies (length (server_processes c1)) 0 c1 in
  raise_OSError (emit EWaitpidRaised c2).

(** The step of lines 132-134 in which [os.wait()] returns and the
    SIGCHLD raised by the death of the killed replicant runs its handler
    before the print of line 133. *)
Definition step_wait_chld (zombies : list Z) (waitpid : answer)
    (c : controller) : controller :=
  match at_ c with
  | WaitPopped =>
      match sigchld c with
      | SigHandler =>
          match waitpid with
          | Returns =>
              goto ShrinkTest
                (emit (EPrint (MsgChildTerminated (server_name c)))
                   (abnormal_child_exit_handler zombies (emit EWait c)))
          | Raises => abnormal_child_exit_handler_raises zombies (emit EWait c)
          end
      | SigDefault | SigIgnore => step ForkOSError c
      end
  | _ => step ForkOSError c
  end.

(** What happens right after one [os.kill] of line 247: it returned and
    the loop goes on, or it returned and a SIGCHLD arrived before the
    next iteration, or it raised. *)
Inductive after_kill :=
| Quiet
| Chld (zombies : list Z) (waitpid : answer)
| KillRaises.

(** Lines 244-247: [for replicant in server_processes] over the live
    list, by index [i]; a SIGCHLD handler that runs between two
    iterations changes the list under the loop.  The result tells
    whether the loop reached its end.  Past the end of [schedule] the
    calls return and no handler runs. *)
Fixpoint kill_live (schedule : list after_kill) (fuel i : nat)
    (c : controller) : controller * bool :=
  match fuel with
  | O => (c, true)
  | S fuel' =>
      match server_processes c !! i with
      | None => (c, true)
      | Some replicant =>
          match schedule with
          | [] => kill_live [] fuel' (S i) (emit (EKill replicant SIGKILL) c)
          | Quiet :: later =>
              kill_live later fuel' (S i) (emit (EKill replicant SIGKILL) c)
          | Chld zombies waitpid :: later =>
              let c1 := emit (EKill replicant SIGKILL) c in
              match sigchld c1 with
              | SigHandler =>
                  match waitpid with
                  | Returns =>
                      kill_live later fuel' (S i)
                        (abnormal_child_exit_handler zombies c1)
                  | Raises =>
                      (abnormal_child_exit_handler_raises zombies c1, false)
                  end
              | SigDefault | SigIgnore => kill_live later fuel' (S i) c1
              end
          | KillRaises :: _ =>
              (raise_OSError (emit (EKillRaised replicant SIGKILL) c), false)
          end
      end
  end.

(** Lines 234-253: the loop, then [os.kill(os.getpid(), SIGKILL)] when
    no exception left the handler. *)
Definition terminate_replicants (schedule : list after_kill)
    (c : controller) : controller :=
  match kill_live schedule (length (server_processes c)) 0 c with
  | (c1, true) => goto (Exited (BySignal SIGKILL)) (emit (EKillSelf SIGKILL) c1)
  | (c1, false) => c1
  end.

(** Delivery of one signal whose handler runs undisturbed and whose
    [waitpid] returns; [deliver_chld_raises] and [deliver_term] below
    are the deliveries with the other answers.  Before line 62 has
    run, SIGUSR1, SIGUSR2 and SIGTERM have their default action (the
    process ends) and SIGCHLD is discarded; SIGKILL always ends the
    process. *)
Definition deliver (zombies : list Z) (s : signum) (c : controller)
  : controller :=
  match at_ c with
  | Exited _ => c
  | _ =>
      match s with
      | SIGKILL => goto (Exited (BySignal SIGKILL)) c
      | SIGCHLD =>
          match sigchld c with
          | SigHandler => abnormal_child_exit_handler zombies c
          | SigDefault | SigIgnore => c
          end
      | SIGUSR1 =>
          if handlers_registered c then increment_active_processes c
          else goto (Exited (BySignal SIGUSR1)) c
      | SIGUSR2 =>
          if handlers_registered c then decrement_active_processes c
          else goto (Exited (BySignal SIGUSR2)) c
      | SIGTERM =>
          if handlers_registered c then terminate_replicants [] c
          else goto (Exited (BySignal SIGTERM)) c
      end
  end.

(** SIGCHLD whose handler's [waitpid] raises. *)
Definition deliver_chld_raises (zombies : list Z) (c : controller)
  : controller :=
  match at_ c with
  | Exited _ => c
  | _ =>
      match sigchld c with
      | SigHandler => abnormal_child_exit_handler_raises zombies c
      | SigDefault | SigIgnore => c
      end
  end.

(** SIGTERM with what happens after each [os.kill] of its handler. *)
Definition deliver_term (schedule : list after_kill) (c : controller)
  : controller :=
  match at_ c with
  | Exited _ => c
  | _ =>
      if handlers_registered c then terminate_replicants schedule c
      else goto (Exited (BySignal SIGTERM)) c
  end.

(** An execution interleaves loop steps and signal deliveries.  In
    [Tick] and [Signal] the calls [os.kill], [os.wait] and [os.waitpid]
    return and SIGTERM runs its handler undisturbed; the other actions
    are the same steps and deliveries with the other answers. *)
Inductive action :=
| Tick (fk : fork_result)
| Signal (s : signum) (zombies : list Z)
| TickRaises
| WaitThenChld (zombies : list Z) (waitpid : answer)
| ChldRaises (zombies : list Z)
| Terminate (schedule : list after_kill).

Definition act (c : controller) (a : action) : controller :=
  match a with
  | Tick fk => step fk c
  | Signal s zombies => deliver zombies s c
  | TickRaises => step_raises c
  | WaitThenChld zombies waitpid => step_wait_chld zombies waitpid c
  | ChldRaises zombies => deliver_chld_raises zombies c
  | Terminate schedule => deliver_term schedule c
  end.

Definition run (acts : list action) (c : controller) : controller :=
  fold_left act acts c.

(** What one turn of the shrink loop logs for the pid it popped. *)
Definition shrink_events (name : string) (pid : Z) : list event :=
  [EKill pid SIGKILL; EWait; EPrint (MsgChildTerminated name)].

(** The events logged by [c'] beyond those already logged by [c]. *)
Definition new_events (c c' : controller) : list event :=
  drop (length (log c)) (log c').

Definition is_fork (e : event) : bool :=
  match e with EFork _ => true | _ => false end.

Definition is_reap (e : event) : bool :=
  match e with EWait | EWaitpidNoHang => true | _ => false end.

Definition count (p : event -> bool) (es : list event) : nat :=
  length (List.filter p es).

(** The bounds and the expected count a state carries. *)
Definition globals (c : controller) : Z * Z * Z :=
  (server_minimum_number c, server_maximum_number c,
   number_of_active_processes c).

(** Within bounds: the invariant of the expected count. *)
Definition within (minimum maximum : Z) (c : controller) : Prop :=
  server_minimum_number c = minimum ∧ server_maximum_number c = maximum
  ∧ minimum <= number_of_active_processes c <= maximum.

(** *** Schedules

    Only the step at line 91 reads the fork answer; the other steps of
    a schedule are given [ForkOSError], which they ignore. *)

(** From the test of line 78 back to it with one more replicant:
    line 78, line 82, the fork of line 91, the append of line 94. *)
Definition spawn_ticks (pid2 : Z) : list action :=
  [Tick ForkOSError; Tick ForkOSError; Tick (ForkReturns pid2);
   Tick ForkOSError].

(** From the test of line 78 back to it through a fork that raises:
    line 78, line 82, line 91, [continue]. *)
Definition failed_ticks : list action :=
  [Tick ForkOSError; Tick ForkOSError; Tick ForkOSError].

(** [n] loop steps that do not fork. *)
Definition idle_ticks (n : nat) : list action := repeat (Tick ForkOSError) n.

(** The stored pids that the [ps] view does not show as zombies. *)
Definition live (zombies : list Z) (pids : list Z) : list Z :=
  List.filter (λ w, negb (Py.mem w zombies)) pids.

(** Never more stored pids than the maximum, and room for one more
    while a forked pid waits to be appended. *)
Definition capped (c : controller) : Prop :=
  len c <= maximum_number_of_processes c
  ∧ ∀ pid2, at_ c = Append pid2 → len c < maximum_number_of_processes c.

(** The server runs: it has not exited. *)
Definition running (c : controller) : Prop := ∀ why, at_ c ≠ Exited why.

(** An action that neither lowers the expected count nor ends the
    server: a loop step, SIGCHLD or SIGUSR1. *)
Definition keeps_count (a : action) : bool :=
  match a with
  | Tick _ | Signal SIGCHLD _ | Signal SIGUSR1 _ => true
  | _ => false
  end.

(** The server is in the loop of lines 78-119 (or is a replicant, or has
    exited) with SIGCHLD ignored, and it does not hold more pids than
    expected: nothing sends it to the shrink loop, hence to line 62. *)
Definition deaf (c : controller) : Prop :=
  sigchld c = SigIgnore
  ∧ server_maximum_number c = maximum_number_of_processes c
  ∧ number_of_active_processes c <= maximum_number_of_processes c
  ∧ match at_ c with
    | GrowTest | SettleTest => len c <= number_of_active_processes c
    | SpawnTest | Append _ => len c < number_of_active_processes c
    | Replicant | Exited _ => True
    | LoopTop | ShrinkTest | KillPopped _ | WaitPopped | Caught => False
    end.

End Server.

(** ** The Manager process (coordinator) *)

Module Manager.

(** A value stored in [server_pids]: a pid, or the [None] that
    [create_server] returns when it falls off its end. *)
Inductive handle := Pid (pid : Z) | PyNone.

(** How a call of [create_server] ends in the process that called it:
    it returns a value, or this process is the child of the fork of
    line 50 and goes on as the server [c]. *)
Inductive call_result :=
| Returned (v : handle)
| NeverReturns (c : Server.controller).

(** How one pass of the command loop ends. *)
Inductive outcome :=
| Prompt (server_pids : gmap string handle) (out : list event)
| Uncaught (e : exn) (out : list event)
| Serving (c : Server.controller) (out : list event)
| Ended (s : signum) (out : list event).

(** Lines 25-146, as seen by the process that called it. *)
Definition create_server (fk : fork_result) (minimum maximum : Z)
    (name : string) : call_result * list event :=
  let banner := EPrint (MsgStarting name minimum maximum) in
  match fk with
  | ForkOSError =>
      (Returned PyNone, [banner; EForkFailed; EPrint MsgServerCreationFailed])
  | ForkReturns pid =>
      if pid =? 0 then
        (NeverReturns (Server.start minimum maximum name), [banner; EFork pid])
      else if pid >? 0 then (Returned (Pid pid), [banner; EFork pid])
      else (Returned PyNone, [banner; EFork pid; EPrint MsgErrorForking])
  end.

(** The fork produced no child: it raised, or returned a negative
    value (the [else] of line 143). *)
Definition fork_failed (fk : fork_result) : bool :=
  match fk with
  | ForkOSError => true
  | ForkReturns pid => pid <? 0
  end.

(** Lines 394-423: the createServer branch once the three fields are
    parsed. *)
Definition createServer (fk : fork_result) (server_pids : gmap string handle)
    (minimum maximum : Z) (name : string) : outcome :=
  if Py.is_empty name then Prompt server_pids [EPrint MsgInvalidServerName]
  else
    match server_pids !! name with
    | Some _ => Prompt server_pids [EPrint MsgDuplicateServerName]
    | None =>
        let notice :=
          if (minimum <? 0) || (maximum >? 10)
          then [EPrint MsgOutOfRange] else [] in
        if maximum >=? minimum then
          match create_server fk minimum maximum name with
          | (Returned v, out) =>
              Prompt (<[name := v]> server_pids) (notice ++ out)
          | (NeverReturns c, out) => Serving c (notice ++ out)
          end
        else Prompt server_pids (notice ++ [EPrint MsgMinimumAboveMaximum])
    end.

(** A fork was asked of the operating system. *)
Definition is_fork_call (e : event) : bool :=
  match e with EFork _ | EForkFailed => true | _ => false end.

Definition forks (out : list event) : bool := existsb is_fork_call out.

(** The messages with which the createServer branch turns a request
    down. *)
Definition is_rejection (e : event) : bool :=
  match e with
  | EPrint MsgInvalidServerName
  | EPrint MsgDuplicateServerName
  | EPrint MsgMinimumAboveMaximum => true
  | _ => false
  end.

(** The pass turned the request down: it is back at the prompt with the
    directory it had, it printed a rejection and it did not fork. *)
Definition rejected (server_pids : gmap string handle) (o : outcome) : Prop :=
  ∃ out, o = Prompt server_pids out
         ∧ existsb is_rejection out = true ∧ forks out = false.

(** What a pass wrote and asked of the operating system. *)
Definition output (o : outcome) : list event :=
  match o with
  | Prompt _ out | Uncaught _ out | Serving _ out | Ended _ out => out
  end.

Section CommandLoop.

(** [int()] on a field; [None] is the ValueError it raises. *)
Variable py_int : string -> option Z.

(** [os.getpid()] of the Manager. *)
Variable manager_pid : Z.

(** [os.kill(v, s)] from [abort_server], [create_process] and
    [abort_process].  The Manager installs no handler for [s], so
    signalling its own pid ends it; [None] is not a pid. *)
Definition relay (v : handle) (s : signum) (k : list event -> outcome)
  : outcome :=
  match v with
  | PyNone => Uncaught TypeError []
  | Pid p => if p =? manager_pid then Ended s [EKill p s] else k [EKill p s]
  end.

(** Lines 379-423. *)
Definition createServer_branch (fk : fork_result)
    (server_pids : gmap string handle) (command : string) : outcome :=
  match Py.split_space command with
  | [_; first; second; parsed_server_name] =>
      match py_int first with
      | None => Uncaught ValueError []
      | Some parsed_minimum =>
          match py_int second with
          | None => Uncaught ValueError []
          | Some parsed_maximum =>
              createServer fk server_pids parsed_minimum parsed_maximum
                parsed_server_name
          end
      end
  | _ => Prompt server_pids [EPrint MsgIncorrectArguments]
  end.

(** Lines 427-448. *)
Definition abortServer_branch (server_pids : gmap string handle)
    (command : string) : outcome :=
  match Py.split_space command with
  | [_; parsed_server_name] =>
      match server_pids !! parsed_server_name with
      | Some v =>
          relay v SIGTERM (fun sent =>
            Prompt (delete parsed_server_name server_pids)
              (sent ++ [EPrint MsgServerTerminated]))
      | None => Prompt server_pids [EPrint MsgServerDoesNotExist]
      end
  | _ => Prompt server_pids [EPrint MsgIncorrectArguments]
  end.

(** Lines 453-471 with SIGUSR1, lines 476-494 with SIGUSR2. *)
Definition process_branch (s : signum) (server_pids : gmap string handle)
    (command : string) : outcome :=
  match Py.split_space command with
  | [_; parsed_server_name] =>
      match server_pids !! parsed_server_name with
      | Some v => relay v s (fun sent => Prompt server_pids sent)
      | None => Prompt server_pids [EPrint MsgServerDoesNotExist]
      end
  | _ => Prompt server_pids [EPrint MsgIncorrectArguments]
  end.

(** Lines 374-502: one pass of [while True]; the branches are tried
    in the order of the [if]/[elif] chain. *)
Definition command_pass (fk : fork_result)
    (server_pids : gmap string handle) (command : string) : outcome :=
  if Py.contains "createServer" command then
    createServer_branch fk server_pids command
  else if Py.contains "abortServer" command then
    abortServer_branch server_pids command
  else if Py.contains "createProcess" command then
    process_branch SIGUSR1 server_pids command
  else if Py.contains "abortProcess" command then
    process_branch SIGUSR2 server_pids command
  else if Py.contains "displayStatus" command then
    Prompt server_pids [EPrint MsgStatus]
  else Prompt server_pids [EPrint MsgUnrecognizedCommand].

(** Lines 362-369: the directory starts with the Manager's own entry. *)
Definition initial_pids : gmap string handle :=
  {[ "Manager" := Pid manager_pid ]}.

(** The directory after a session: the lines typed, each with the
    answer of the fork its pass may perform.  [None] when some pass
    does not come back to the prompt. *)
Fixpoint session (server_pids : gmap string handle)
    (typed : list (string * fork_result)) : option (gmap string handle) :=
  match typed with
  | [] => Some server_pids
  | (command, fk) :: later =>
      match command_pass fk server_pids command with
      | Prompt server_pids' _ => session server_pids' later
      | _ => None
      end
  end.

End CommandLoop.

End Manager.

(** * Properties *)

(** ** The Python primitives *)

Module PyFacts.


Lemma prefix_split (sub s : string) :
  String.prefix sub s = true → ∃ rest, s = (sub ++ rest)%string.
Proof.
  revert s. induction sub as [|ch sub IH]; intros s H.
  - now exists s.
  - destruct s as [|ch' s]; simpl in H; [discriminate|].
    destruct (ascii_dec ch ch') as [->|]; [|discriminate].
    destruct (IH _ H) as [rest ->]. now exists rest.
Qed.



Lemma contains_split (sub s : string) :
  Py.contains sub s = true →
  ∃ before after, s = (before ++ sub ++ after)%string.
Proof.
  induction s as [|ch s IH]; cbn [Py.contains]; intros H.
  - rewrite orb_false_r in H. destruct (prefix_split _ _ H) as [rest ->].
    now exists EmptyString, rest.
  - apply orb_true_iff in H as [H|H].
    + destruct (prefix_split _ _ H) as [rest ->]. now exists EmptyString, rest.
    + destruct (IH H) as (before & after & ->).
      now exists (String ch before), after.
Qed.

Lemma is_empty_false (s : string) : Py.is_empty s = false → s ≠ EmptyString.
Proof. now destruct s. Qed.

Lemma pop_snoc {A} (front : list A) (x : A) :
  Py.pop (front ++ [x]) = Some (front, x).
Proof.
  induction front as [|y front IH]; simpl; [reflexivity|].
  now rewrite IH.
Qed.

Lemma mem_false_not_in (x : Z) (l : list Z) :
  Py.mem x l = false → x ∉ l.
Proof.
  unfold Py.mem. intros H Hin.
  apply not_true_iff_false in H. apply H.
  apply existsb_exists. exists x. split; [|apply Z.eqb_refl].
  now apply list_elem_of_In.
Qed.

(** Removing a value that first occurs right after [before]. *)
Lemma remove_middle (x : Z) (before after : list Z) :
  x ∉ before → Py.remove x (before ++ x :: after) = before ++ after.
Proof.
  induction before as [|y before IH]; simpl; intros Hnot.
  - now rewrite Z.eqb_refl.
  - destruct (Z.eqb_spec y x) as [->|Hne].
    + exfalso. apply Hnot. left.
    + f_equal. apply IH. intros Hin. apply Hnot. now right.
Qed.

End PyFacts.

(** ** The Manager *)

Module ManagerFacts.
Import Manager.

Lemma initial_has_manager (manager_pid : Z) :
  initial_pids manager_pid !! "Manager" = Some (Pid manager_pid).
Proof. unfold initial_pids. apply lookup_singleton_eq. Qed.

Lemma initial_no_empty_name (manager_pid : Z) :
  initial_pids manager_pid !! "" = None.
Proof. unfold initial_pids. now apply lookup_singleton_ne. Qed.

(** The createServer branch never registers the empty name. *)
Lemma createServer_keeps_empty_free fk (server_pids : gmap string handle)
    minimum maximum name server_pids' out :
  server_pids !! "" = None →
  createServer fk server_pids minimum maximum name = Prompt server_pids' out →
  server_pids' !! "" = None.
Proof.
  intros Hfree. unfold createServer.
  destruct (Py.is_empty name) eqn:Hname; [congruence|].
  apply PyFacts.is_empty_false in Hname.
  destruct (server_pids !! name); [congruence|].
  destruct (maximum >=? minimum); [|congruence].
  destruct (create_server fk minimum maximum name) as [[v|c] evs];
    [|discriminate].
  intros [= <- _]. rewrite lookup_insert_ne; [exact Hfree | exact Hname].
Qed.

Lemma relay_prompt manager_pid v s k server_pids' out :
  relay manager_pid v s k = Prompt server_pids' out →
  ∃ sent, k sent = Prompt server_pids' out.
Proof.
  unfold relay. destruct v as [p|]; [|discriminate].
  destruct (p =? manager_pid); [discriminate|]. eauto.
Qed.

Lemma command_pass_keeps_empty_free py_int manager_pid fk
    (server_pids : gmap string handle) command server_pids' out :
  server_pids !! "" = None →
  command_pass py_int manager_pid fk server_pids command
    = Prompt server_pids' out →
  server_pids' !! "" = None.
Proof.
  intros Hfree. unfold command_pass.
  destruct (Py.contains "createServer" command).
  { unfold createServer_branch.
    destruct (Py.split_space command) as [|w0 [|w1 [|w2 [|w3 [|w4 ws]]]]];
      try congruence.
    destruct (py_int w1); [|discriminate].
    destruct (py_int w2); [|discriminate].
    now apply createServer_keeps_empty_free. }
  destruct (Py.contains "abortServer" command).
  { unfold abortServer_branch.
    destruct (Py.split_space command) as [|w0 [|w1 [|w2 ws]]];
      try congruence.
    destruct (server_pids !! w1) as [v|]; [|congruence].
    intros H. apply relay_prompt in H as [sent [= <- _]].
    destruct (decide (w1 = "")) as [->|Hne].
    - apply lookup_delete_eq.
    - now rewrite lookup_delete_ne. }
  assert (Hproc : ∀ s, process_branch manager_pid s server_pids command
                       = Prompt server_pids' out → server_pids' !! "" = None).
  { intros s. unfold process_branch.
    destruct (Py.split_space command) as [|w0 [|w1 [|w2 ws]]];
      try congruence.
    destruct (server_pids !! w1) as [v|]; [|congruence].
    intros H. apply relay_prompt in H as [sent [= <- _]]. exact Hfree. }
  destruct (Py.contains "createProcess" command); [apply Hproc|].
  destruct (Py.contains "abortProcess" command); [apply Hproc|].
  destruct (Py.contains "displayStatus" command); congruence.
Qed.

(** No directory reached by a session has the empty name as a key. *)
Lemma session_keeps_empty_free py_int manager_pid typed :
  ∀ server_pids final : gmap string handle,
  server_pids !! "" = None →
  session py_int manager_pid server_pids typed = Some final →
  final !! "" = None.
Proof.
  induction typed as [|[command fk] later IH]; simpl; intros d final Hfree.
  - now intros [= <-].
  - destruct (command_pass py_int manager_pid fk d command) eqn:Hpass;
      try discriminate.
    apply IH. eapply command_pass_keeps_empty_free; eassumption.
Qed.

Lemma not_empty_is_empty (name : string) :
  name ≠ "" → Py.is_empty name = false.
Proof. now destruct name. Qed.


End ManagerFacts.

(** ** Claims about the Manager *)

Import Manager.

(** C1, on the code: the range test of lines 405-407 only prints.  The
    line [createServer -1 5 B], typed at a fresh Manager whose fork
    succeeds with pid 4242, prints the range notice and then forks the
    server and registers "B" all the same. *)
Theorem createServer_out_of_range_still_spawns :
  command_pass Py.dec_int 100 (ForkReturns 4242) (initial_pids 100)
    "createServer -1 5 B"
  = Prompt (<["B" := Pid 4242]> (initial_pids 100))
      [EPrint MsgOutOfRange; EPrint (MsgStarting "B" (-1) 5); EFork 4242].
Proof. vm_compute. reflexivity. Qed.

(** C4: a createServer request with minimum above maximum is turned
    down: a rejection is printed, no fork is asked for, and the pass is
    back at the prompt with the directory it had. *)
Theorem createServer_rejects_min_above_max fk
    (server_pids : gmap string handle) (minimum maximum : Z) (name : string) :
  minimum > maximum →
  rejected server_pids (createServer fk server_pids minimum maximum name).
Proof.
  intros Hgt. unfold rejected, createServer.
  destruct (Py.is_empty name); [eexists; repeat split; reflexivity|].
  destruct (server_pids !! name); [eexists; repeat split; reflexivity|].
  replace (maximum >=? minimum) with false by (symmetry; lia).
  eexists. split; [reflexivity|].
  destruct ((minimum <? 0) || (maximum >? 10)); split; reflexivity.
Qed.

Lemma createServer_rejects_min_above_max_witness :
  rejected (initial_pids 100)
    (createServer (ForkReturns 4242) (initial_pids 100) 4 2 "C").
Proof. apply createServer_rejects_min_above_max. lia. Defined.

(** The scenario of C4 as a typed line. *)
Example createServer_4_2_C :
  command_pass Py.dec_int 100 (ForkReturns 4242) (initial_pids 100)
    "createServer 4 2 C"
  = Prompt (initial_pids 100) [EPrint MsgMinimumAboveMaximum].
Proof. vm_compute. reflexivity. Qed.

(** C5: in every directory a session can reach from the initial one,
    a createServer request for a name that is already a key is turned
    down as a duplicate: only the duplicate message is printed, nothing
    is forked, the directory is the same.  The initial directory holds
    the Manager's own entry, so "Manager" is such a name. *)
Theorem createServer_rejects_duplicate_name py_int manager_pid typed fk
    (server_pids : gmap string handle) (minimum maximum : Z) (name : string) :
  session py_int manager_pid (initial_pids manager_pid) typed
    = Some server_pids →
  is_Some (server_pids !! name) →
  createServer fk server_pids minimum maximum name
  = Prompt server_pids [EPrint MsgDuplicateServerName].
Proof.
  intros Hreach [v Hv].
  assert (Hfree : server_pids !! "" = None).
  { eapply ManagerFacts.session_keeps_empty_free; [|exact Hreach].
    apply ManagerFacts.initial_no_empty_name. }
  unfold createServer.
  rewrite ManagerFacts.not_empty_is_empty by (intros ->; congruence).
  now rewrite Hv.
Qed.

Lemma createServer_rejects_duplicate_name_witness :
  let server_pids := <["A" := Pid 4242]> (initial_pids 100) in
  createServer (ForkReturns 4243) server_pids 0 2 "Manager"
  = Prompt server_pids [EPrint MsgDuplicateServerName].
Proof.
  apply (createServer_rejects_duplicate_name Py.dec_int 100
           [("createServer 1 3 A", ForkReturns 4242)]).
  - vm_compute. reflexivity.
  - exists (Pid 100). vm_compute. reflexivity.
Defined.


(** C10: when the fork of line 50 fails, [create_server] returns [None]
    and the createServer branch stores it under the requested name; the
    name is taken from then on although no server runs. *)
Theorem failed_fork_still_registers_name fk
    (server_pids : gmap string handle) (minimum maximum : Z) (name : string) :
  fork_failed fk = true →
  Py.is_empty name = false →
  server_pids !! name = None →
  minimum <= maximum →
  (create_server fk minimum maximum name).1 = Returned PyNone
  ∧ (∃ out, createServer fk server_pids minimum maximum name
            = Prompt (<[name := PyNone]> server_pids) out)
  ∧ ∀ fk' minimum' maximum',
      createServer fk' (<[name := PyNone]> server_pids) minimum' maximum' name
      = Prompt (<[name := PyNone]> server_pids)
          [EPrint MsgDuplicateServerName].
Proof.
  intros Hfail Hname Hfresh Hle.
  assert (Hret : ∃ out, create_server fk minimum maximum name
                        = (Returned PyNone, out)).
  { unfold create_server. destruct fk as [pid|]; simpl in Hfail.
    - replace (pid =? 0) with false by (symmetry; lia).
      replace (pid >? 0) with false by (symmetry; lia). eauto.
    - eauto. }
  destruct Hret as [out Hret].
  split; [now rewrite Hret|]. split.
  - unfold createServer. rewrite Hname, Hfresh, Hret.
    replace (maximum >=? minimum) with true by (symmetry; lia). eauto.
  - intros. unfold createServer.
    now rewrite Hname, lookup_insert_eq.
Qed.

Lemma failed_fork_still_registers_name_witness :
  (create_server ForkOSError 1 3 "A").1 = Returned PyNone
  ∧ (∃ out, createServer ForkOSError (initial_pids 100) 1 3 "A"
            = Prompt (<["A" := PyNone]> (initial_pids 100)) out)
  ∧ ∀ fk' minimum' maximum',
      createServer fk' (<["A" := PyNone]> (initial_pids 100))
        minimum' maximum' "A"
      = Prompt (<["A" := PyNone]> (initial_pids 100))
          [EPrint MsgDuplicateServerName].
Proof.
  apply failed_fork_still_registers_name.
  - reflexivity.
  - reflexivity.
  - vm_compute. reflexivity.
  - lia.
Defined.

(** ** The Server *)

Module ServerFacts.
Import Server.

Lemma step_globals fk c : globals (step fk c) = globals c.
Proof.
  unfold step, globals.
  destruct (at_ c); simpl;
    repeat match goal with
           | |- context [if ?b then _ else _] => destruct b
           | |- context [match ?x with _ => _ end] => destruct x
           end; reflexivity.
Qed.

Lemma scan_globals zombies fuel : ∀ i c,
  globals (scan zombies fuel i c) = globals c.
Proof.
  induction fuel as [|fuel IH]; intros i c; simpl; [reflexivity|].
  destruct (server_processes c !! i) as [pid|]; [|reflexivity].
  destruct (Py.mem pid zombies); rewrite IH; reflexivity.
Qed.

Lemma handler_globals zombies c :
  globals (abnormal_child_exit_handler zombies c) = globals c.
Proof.
  unfold abnormal_child_exit_handler.
  change (globals (scan zombies
                     (length (server_processes (set_sigchld SigIgnore c))) 0
                     (set_sigchld SigIgnore c)) = globals c).
  now rewrite scan_globals.
Qed.

Lemma raise_globals c : globals (raise_OSError c) = globals c.
Proof. unfold raise_OSError. now destruct (at_ c). Qed.

Lemma step_raises_globals c : globals (step_raises c) = globals c.
Proof.
  unfold step_raises.
  destruct (at_ c); try apply step_globals; now rewrite raise_globals.
Qed.

Lemma handler_raises_globals zombies c :
  globals (abnormal_child_exit_handler_raises zombies c) = globals c.
Proof.
  unfold abnormal_child_exit_handler_raises. cbv zeta. rewrite raise_globals.
  change (globals (scan zombies
                     (length (server_processes (set_sigchld SigIgnore c))) 0
                     (set_sigchld SigIgnore c)) = globals c).
  now rewrite scan_globals.
Qed.

Lemma step_wait_chld_globals zombies waitpid c :
  globals (step_wait_chld zombies waitpid c) = globals c.
Proof.
  unfold step_wait_chld.
  destruct (at_ c); try apply step_globals.
  destruct (sigchld c); try apply step_globals.
  destruct waitpid.
  - change (globals (abnormal_child_exit_handler zombies (emit EWait c))
            = globals c).
    now rewrite handler_globals.
  - now rewrite handler_raises_globals.
Qed.

Lemma kill_live_globals fuel : ∀ schedule i c,
  globals (kill_live schedule fuel i c).1 = globals c.
Proof.
  induction fuel as [|fuel IH]; intros schedule i c; [reflexivity|].
  cbn [kill_live].
  destruct (server_processes c !! i) as [pid|]; [|reflexivity].
  destruct schedule as [|[|zombies [|]|] later]; cbv zeta.
  - now rewrite IH.
  - now rewrite IH.
  - destruct (sigchld (emit (EKill pid SIGKILL) c)); rewrite IH;
      [reflexivity | now rewrite handler_globals | reflexivity].
  - destruct (sigchld (emit (EKill pid SIGKILL) c));
      [now rewrite IH | cbn [fst]; now rewrite handler_raises_globals
      | now rewrite IH].
  - cbn [fst]. now rewrite raise_globals.
Qed.

Lemma terminate_globals schedule c :
  globals (terminate_replicants schedule c) = globals c.
Proof.
  unfold terminate_replicants.
  pose proof (kill_live_globals (length (server_processes c)) schedule 0 c)
    as H.
  destruct (kill_live schedule (length (server_processes c)) 0 c)
    as [c1 [|]]; exact H.
Qed.

Lemma emit_all_none c : emit_all [] c = c.
Proof. destruct c. unfold emit_all. simpl. now rewrite app_nil_r. Qed.

(** The loop of lines 244-247 that no handler disturbs sends one
    SIGKILL per stored pid, in the order of the list. *)
Lemma kill_live_quiet fuel : ∀ i c,
  (length (server_processes c) <= i + fuel)%nat →
  kill_live [] fuel i c
  = (emit_all (map (λ p, EKill p SIGKILL) (drop i (server_processes c))) c,
     true).
Proof.
  induction fuel as [|fuel IH]; intros i c Hlen; cbn [kill_live].
  - rewrite drop_ge by lia. now rewrite emit_all_none.
  - destruct (server_processes c !! i) as [pid|] eqn:Hi.
    + rewrite IH by (cbn; lia).
      rewrite (drop_S _ _ _ Hi). f_equal.
      destruct c. unfold emit_all, emit. cbn. now rewrite <- app_assoc.
    + apply lookup_ge_None in Hi. rewrite drop_ge by lia.
      now rewrite emit_all_none.
Qed.

Lemma terminate_quiet c :
  terminate_replicants [] c
  = goto (Exited (BySignal SIGKILL))
      (emit (EKillSelf SIGKILL)
         (emit_all (map (λ p, EKill p SIGKILL) (server_processes c)) c)).
Proof.
  unfold terminate_replicants. now rewrite kill_live_quiet by lia.
Qed.

Lemma within_globals minimum maximum c c' :
  globals c' = globals c → within minimum maximum c → within minimum maximum c'.
Proof. unfold globals, within. intros [= -> -> ->]. tauto. Qed.

Lemma increment_within minimum maximum c :
  within minimum maximum c →
  within minimum maximum (increment_active_processes c).
Proof.
  unfold within, increment_active_processes. intros (Hmin & Hmax & Hb).
  destruct (Z.gtb_spec (number_of_active_processes c + 1)
              (server_maximum_number c)); simpl; repeat split; lia.
Qed.

Lemma decrement_within minimum maximum c :
  within minimum maximum c →
  within minimum maximum (decrement_active_processes c).
Proof.
  unfold within, decrement_active_processes. intros (Hmin & Hmax & Hb).
  destruct (Z.ltb_spec (number_of_active_processes c - 1)
              (server_minimum_number c)); simpl; repeat split; lia.
Qed.

Lemma deliver_within minimum maximum zombies s c :
  within minimum maximum c → within minimum maximum (deliver zombies s c).
Proof.
  intros Hin. unfold deliver.
  destruct (at_ c); try exact Hin;
    (destruct s;
     [ destruct (sigchld c); try exact Hin;
       eapply within_globals; [apply handler_globals | exact Hin]
     | destruct (handlers_registered c);
       [now apply increment_within | exact Hin]
     | destruct (handlers_registered c);
       [now apply decrement_within | exact Hin]
     | destruct (handlers_registered c); [|exact Hin];
       eapply within_globals; [apply terminate_globals | exact Hin]
     | exact Hin ]).
Qed.

Lemma act_within minimum maximum c a :
  within minimum maximum c → within minimum maximum (act c a).
Proof.
  destruct a as [fk|s zombies| |zombies waitpid|zombies|schedule]; simpl.
  - apply within_globals, step_globals.
  - apply deliver_within.
  - apply within_globals, step_raises_globals.
  - apply within_globals, step_wait_chld_globals.
  - intros Hin. unfold deliver_chld_raises.
    destruct (at_ c); try exact Hin;
      (destruct (sigchld c); try exact Hin;
       eapply within_globals; [apply handler_raises_globals | exact Hin]).
  - intros Hin. unfold deliver_term.
    destruct (at_ c); try exact Hin;
      (destruct (handlers_registered c); [|exact Hin];
       eapply within_globals; [apply terminate_globals | exact Hin]).
Qed.

Lemma run_within minimum maximum acts : ∀ c,
  within minimum maximum c → within minimum maximum (run acts c).
Proof.
  unfold run. induction acts as [|a acts IH]; intros c Hin; simpl.
  - exact Hin.
  - apply IH, act_within, Hin.
Qed.

Lemma start_within minimum maximum name :
  minimum <= maximum → within minimum maximum (start minimum maximum name).
Proof. unfold within; simpl. lia. Qed.

(** A process that has exited does nothing more. *)
Lemma exited_act c why a : at_ c = Exited why → act c a = c.
Proof.
  intros H. destruct a as [fk|s zombies| |zombies waitpid|zombies|schedule];
    simpl.
  - unfold step. now rewrite H.
  - unfold deliver. now rewrite H.
  - unfold step_raises, step. now rewrite H.
  - unfold step_wait_chld, step. now rewrite H.
  - unfold deliver_chld_raises. now rewrite H.
  - unfold deliver_term. now rewrite H.
Qed.

Lemma exited_run acts : ∀ c why, at_ c = Exited why → run acts c = c.
Proof.
  unfold run. induction acts as [|a acts IH]; intros c why H; simpl.
  - reflexivity.
  - rewrite (exited_act c why a H). now apply (IH c why).
Qed.

End ServerFacts.

(** ** Claims about the Server *)

Import Server.

(** C3: a server started with bounds [minimum <= maximum] has its
    expected count equal to [minimum], and after any interleaving of
    loop steps and signals, whatever the operating system answers, the
    count is within the bounds.  In every such state the scale-up
    handler leaves the count as it is and prints the notice when the
    count plus one exceeds the maximum, and makes it exactly one more
    otherwise, printing nothing; the scale-down handler leaves it and
    prints when the count minus one is below the minimum, and makes it
    exactly one less otherwise.  Either way the count stays within the
    bounds.  These handlers are what SIGUSR1 and SIGUSR2 run in a
    server that has passed line 62 and has not exited. *)
Theorem expected_count_stays_within_bounds (minimum maximum : Z)
    (name : string) (acts : list action) (zombies : list Z) :
  minimum <= maximum →
  number_of_active_processes (start minimum maximum name) = minimum
  ∧ let c := run acts (start minimum maximum name) in
    let target := number_of_active_processes c in
    minimum <= target <= maximum
    ∧ number_of_active_processes (increment_active_processes c)
      = (if target + 1 >? maximum then target else target + 1)
    ∧ new_events c (increment_active_processes c)
      = (if target + 1 >? maximum then [EPrint MsgMaximumReached] else [])
    ∧ number_of_active_processes (decrement_active_processes c)
      = (if target - 1 <? minimum then target else target - 1)
    ∧ new_events c (decrement_active_processes c)
      = (if target - 1 <? minimum then [EPrint MsgMinimumReached] else [])
    ∧ minimum <= number_of_active_processes (increment_active_processes c)
      <= maximum
    ∧ minimum <= number_of_active_processes (decrement_active_processes c)
      <= maximum
    ∧ (handlers_registered c = true → running c →
       deliver zombies SIGUSR1 c = increment_active_processes c
       ∧ deliver zombies SIGUSR2 c = decrement_active_processes c).
Proof.
  intros Hle. split; [reflexivity|]. cbv zeta.
  pose proof (ServerFacts.run_within minimum maximum acts _
                (ServerFacts.start_within minimum maximum name Hle)) as Hin.
  pose proof (ServerFacts.increment_within _ _ _ Hin) as (_ & _ & Hup).
  pose proof (ServerFacts.decrement_within _ _ _ Hin) as (_ & _ & Hdown).
  destruct Hin as (Hmin & Hmax & Hb).
  set (c := run acts (start minimum maximum name)) in *.
  split; [exact Hb|].
  split; [|split; [|split; [|split; [|split; [exact Hup|
                                              split; [exact Hdown|]]]]]].
  - unfold increment_active_processes. rewrite Hmax.
    now destruct (number_of_active_processes c + 1 >? maximum).
  - unfold increment_active_processes, new_events. rewrite Hmax.
    destruct (number_of_active_processes c + 1 >? maximum).
    + change (log (emit (EPrint MsgMaximumReached) c))
        with (log c ++ [EPrint MsgMaximumReached]).
      apply drop_app_length.
    + change (log (set_active (number_of_active_processes c + 1) c))
        with (log c).
      apply drop_all.
  - unfold decrement_active_processes. rewrite Hmin.
    now destruct (number_of_active_processes c - 1 <? minimum).
  - unfold decrement_active_processes, new_events. rewrite Hmin.
    destruct (number_of_active_processes c - 1 <? minimum).
    + change (log (emit (EPrint MsgMinimumReached) c))
        with (log c ++ [EPrint MsgMinimumReached]).
      apply drop_app_length.
    + change (log (set_active (number_of_active_processes c - 1) c))
        with (log c).
      apply drop_all.
  - intros Hreg Hrun. unfold deliver. rewrite Hreg.
    destruct (at_ c) eqn:E; try (split; reflexivity).
    now destruct (Hrun why).
Qed.

Lemma expected_count_stays_within_bounds_witness :
  let c := run [Tick ForkOSError; Signal SIGUSR1 []; Signal SIGUSR2 [];
                Signal SIGUSR1 []] (start 1 3 "A") in
  number_of_active_processes c = 2
  ∧ number_of_active_processes (increment_active_processes c) = 3
  ∧ number_of_active_processes (decrement_active_processes c) = 1
  ∧ number_of_active_processes
      (increment_active_processes (increment_active_processes c)) = 3.
Proof.
  cbv zeta.
  pose proof (expected_count_stays_within_bounds 1 3 "A"
    [Tick ForkOSError; Signal SIGUSR1 []; Signal SIGUSR2 [];
     Signal SIGUSR1 []] []) as H.
  destruct H as [_ H]; [lia|].
  cbv zeta in H. destruct H as (_ & Hup & _ & Hdown & _).
  split; [reflexivity|]. split; [exact Hup|]. split; [exact Hdown|].
  reflexivity.
Defined.

(** C7, on the code: nothing keeps SIGCHLD away while the SIGTERM
    handler runs, and the loop of line 244 walks the live list.  A
    server created with bounds 3 and 3 has settled with the replicants
    779, 780 and 781 and the handlers of lines 62-75.  SIGTERM arrives;
    the first [os.kill] ends 779, the SIGCHLD that follows runs
    [abnormal_child_exit_handler] before the second iteration, [ps]
    shows 779 as a zombie and line 188 removes it.  The loop goes on at
    index 1 of the shortened list, which is 781: 780 is never
    signalled, and the server kills itself. *)
Theorem terminate_skips_replicant_after_sigchld :
  let c := run (idle_ticks 1 ++ flat_map spawn_ticks [779; 780; 781]
                ++ idle_ticks 1) (start 3 3 "A") in
  let c' := act c (Terminate [Chld [779] Returns]) in
  server_processes c = [779; 780; 781]
  ∧ at_ c = SettleTest
  ∧ sigchld c = SigHandler
  ∧ handlers_registered c = true
  ∧ new_events c c'
    = [EKill 779 SIGKILL; EPrint (MsgChildStopped 779); EWaitpidNoHang;
       EKill 781 SIGKILL; EKillSelf SIGKILL]
  ∧ server_processes c' = [780; 781]
  ∧ at_ c' = Exited (BySignal SIGKILL).
Proof. vm_compute. repeat split. Qed.

(** *** The steps of the loop, one lemma per program point *)

Module LoopFacts.

Lemma settle_stays fk c :
  at_ c = SettleTest → len c = number_of_active_processes c → step fk c = c.
Proof.
  intros Hat Heq. unfold step. rewrite Hat.
  now replace (len c =? number_of_active_processes c) with true
    by (symmetry; lia).
Qed.

Lemma settle_leaves fk c :
  at_ c = SettleTest → len c ≠ number_of_active_processes c →
  step fk c = goto SpawnTest c.
Proof.
  intros Hat Hne. unfold step. rewrite Hat.
  now replace (len c =? number_of_active_processes c) with false
    by (symmetry; lia).
Qed.

Lemma spawn_forks pid2 c :
  at_ c = SpawnTest → len c < maximum_number_of_processes c →
  step (ForkReturns pid2) c = goto (Append pid2) (emit (EFork pid2) c).
Proof.
  intros Hat Hlt. unfold step. rewrite Hat.
  now replace (len c <? maximum_number_of_processes c) with true
    by (symmetry; lia).
Qed.

Lemma append_in_server fk pid2 c :
  at_ c = Append pid2 → pid2 ≠ 0 →
  step fk c = goto GrowTest (set_processes (server_processes c ++ [pid2]) c).
Proof.
  intros Hat Hne. unfold step. rewrite Hat.
  now replace (pid2 =? 0) with false by (symmetry; lia).
Qed.

Lemma grow_settles fk c :
  at_ c = GrowTest → len c <= number_of_active_processes c →
  step fk c = goto SettleTest c.
Proof.
  intros Hat Hle. unfold step. rewrite Hat.
  now replace (len c <=? number_of_active_processes c) with true
    by (symmetry; lia).
Qed.

Lemma grow_gives_up fk c :
  at_ c = GrowTest → len c > number_of_active_processes c →
  step fk c = goto ShrinkTest c.
Proof.
  intros Hat Hgt. unfold step. rewrite Hat.
  now replace (len c <=? number_of_active_processes c) with false
    by (symmetry; lia).
Qed.

Lemma settled_run c :
  at_ c = SettleTest → len c = number_of_active_processes c →
  ∀ fks, run (map Tick fks) c = c.
Proof.
  intros Hat Heq fks. unfold run.
  induction fks as [|fk fks IH]; simpl; [reflexivity|].
  now rewrite settle_stays.
Qed.

Lemma emit_thrice e1 e2 e3 c :
  emit e3 (emit e2 (emit e1 c)) = emit_all [e1; e2; e3] c.
Proof.
  destruct c; unfold emit, emit_all; cbn. now rewrite <- !app_assoc.
Qed.

(** One turn of the shrink loop: pop, kill, wait. *)
Lemma shrink_turn c front last f1 f2 f3 :
  at_ c = ShrinkTest →
  server_processes c = front ++ [last] →
  number_of_active_processes c <= Z.of_nat (length front) →
  step f1 c = goto (KillPopped last) (set_processes front c)
  ∧ step f2 (step f1 c)
    = goto WaitPopped (emit (EKill last SIGKILL) (set_processes front c))
  ∧ step f3 (step f2 (step f1 c))
    = goto ShrinkTest
        (emit_all (shrink_events (server_name c) last)
           (set_processes front c)).
Proof.
  intros Hat Hprocs Hle.
  assert (H1 : step f1 c = goto (KillPopped last) (set_processes front c)).
  { unfold step. rewrite Hat.
    replace (len c >? number_of_active_processes c) with true.
    - now rewrite Hprocs, PyFacts.pop_snoc.
    - symmetry. unfold len. rewrite Hprocs, length_app. cbn [length].
      apply Z.gtb_lt. lia. }
  rewrite H1. split; [reflexivity|]. split; [reflexivity|].
  transitivity
    (goto ShrinkTest
       (emit (EPrint (MsgChildTerminated (server_name c)))
          (emit EWait
             (emit (EKill last SIGKILL) (set_processes front c)))));
    [reflexivity|].
  f_equal. apply emit_thrice.
Qed.

Lemma scan_clean zombies fuel : ∀ i c,
  (∀ w, w ∈ server_processes c → Py.mem w zombies = false) →
  scan zombies fuel i c = c.
Proof.
  induction fuel as [|fuel IH]; intros i c Hclean; simpl; [reflexivity|].
  destruct (server_processes c !! i) as [pid|] eqn:E; [|reflexivity].
  rewrite (Hclean pid) by (eapply list_elem_of_lookup_2; exact E).
  now apply IH.
Qed.

(** The scan of the SIGCHLD handler when exactly the stored pid [z] is
    shown as a zombie. *)
Lemma scan_single zombies z before after :
  Py.mem z zombies = true →
  (∀ w, w ∈ before ++ after → Py.mem w zombies = false) →
  ∀ fuel i c,
  server_processes c = before ++ z :: after →
  (i <= length before)%nat → (length before - i < fuel)%nat →
  scan zombies fuel i c
  = set_processes (before ++ after) (emit (EPrint (MsgChildStopped z)) c).
Proof.
  intros Hz Hclean.
  assert (Hnot : z ∉ before).
  { intros Hin. rewrite (Hclean z) in Hz; [discriminate|].
    apply elem_of_app. now left. }
  induction fuel as [|fuel IH]; intros i c Hp Hi Hfuel; [lia|].
  simpl. rewrite Hp.
  destruct (decide (i = length before)) as [->|Hlt].
  - rewrite list_lookup_middle by reflexivity. rewrite Hz.
    rewrite PyFacts.remove_middle by exact Hnot.
    now apply scan_clean.
  - assert (Hlt' : (i < length before)%nat) by lia.
    rewrite lookup_app_l by exact Hlt'.
    destruct (lookup_lt_is_Some_2 before i Hlt') as [w Hw]. rewrite Hw.
    rewrite (Hclean w)
      by (apply elem_of_app; left; eapply list_elem_of_lookup_2; exact Hw).
    apply IH; [exact Hp | lia | lia].
Qed.

(** A settled server whose expected count is lowered by SIGUSR2 goes on
    to fork, whenever it holds fewer pids than the maximum. *)
Lemma settled_scale_down_forks c zombies f1 pid2 :
  at_ c = SettleTest →
  handlers_registered c = true →
  len c = number_of_active_processes c →
  server_minimum_number c <= number_of_active_processes c - 1 →
  len c < maximum_number_of_processes c →
  run [Signal SIGUSR2 zombies; Tick f1; Tick (ForkReturns pid2)] c
  = goto (Append pid2)
      (emit (EFork pid2)
         (set_active (number_of_active_processes c - 1) c)).
Proof.
  intros Hat Hreg Hlen Hmin Hmax.
  change (run [Signal SIGUSR2 zombies; Tick f1; Tick (ForkReturns pid2)] c)
    with (step (ForkReturns pid2) (step f1 (deliver zombies SIGUSR2 c))).
  assert (Hd : deliver zombies SIGUSR2 c
               = set_active (number_of_active_processes c - 1) c).
  { unfold deliver. rewrite Hat, Hreg. unfold decrement_active_processes.
    now replace (number_of_active_processes c - 1 <? server_minimum_number c)
      with false by (symmetry; lia). }
  rewrite Hd.
  rewrite (settle_leaves f1 (set_active (number_of_active_processes c - 1) c))
    by (try exact Hat;
        change (len (set_active (number_of_active_processes c - 1) c))
          with (len c);
        change (number_of_active_processes
                  (set_active (number_of_active_processes c - 1) c))
          with (number_of_active_processes c - 1); lia).
  rewrite spawn_forks; [reflexivity | reflexivity | exact Hmax].
Qed.

End LoopFacts.

(** *** The shrink loop *)

(** C6, on the code: the handler of SIGCHLD leaves the signal on
    SIG_IGN (line 172), and from then on [os.wait()] has no exit status
    to return.  A server with bounds 0 and 3 is scaled up once and
    settles with the replicant 11; SIGUSR2 lowers the expected count to
    0 and the loop forks 12 first (see C2).  The first turn of the
    shrink loop pops 12, kills it and [os.wait()] returns; the SIGCHLD
    of that death runs the handler.  The second turn pops 11 and kills
    it, but [os.wait()] raises ChildProcessError: line 145 catches it,
    line 146 prints, and the server has left its loop for good.  A
    server started with the bounds of C1's request has nothing to pop at
    all: its first turn ends it with IndexError. *)
Theorem second_shrink_turn_leaves_the_loop :
  let settled :=
    run [Tick ForkOSError; Tick ForkOSError; Signal SIGUSR1 [];
         Tick ForkOSError; Tick (ForkReturns 11); Tick ForkOSError;
         Tick ForkOSError]
      (start 0 3 "A") in
  let lowered := deliver [] SIGUSR2 settled in
  let first_turn :=
    run [Tick ForkOSError; Tick (ForkReturns 12); Tick ForkOSError;
         Tick ForkOSError; Tick ForkOSError; Tick ForkOSError;
         WaitThenChld [] Returns]
      lowered in
  let second_turn :=
    run [Tick ForkOSError; Tick ForkOSError; TickRaises] first_turn in
  server_processes settled = [11]
  ∧ sigchld settled = SigHandler
  ∧ number_of_active_processes lowered = 0
  ∧ new_events lowered first_turn
    = [EFork 12; EKill 12 SIGKILL; EWait; EWaitpidNoHang;
       EPrint (MsgChildTerminated "A")]
  ∧ server_processes first_turn = [11]
  ∧ at_ first_turn = ShrinkTest
  ∧ sigchld first_turn = SigIgnore
  ∧ new_events first_turn second_turn
    = [EKill 11 SIGKILL; EWaitRaised; EPrint MsgServerCreationFailed]
  ∧ server_processes second_turn = []
  ∧ at_ second_turn = Caught
  ∧ (∀ fk, step fk second_turn = second_turn)
  ∧ at_ (run (idle_ticks 3) (start (-1) 5 "B"))
    = Exited (ByException IndexError).
Proof. vm_compute. repeat split. Qed.

(** With the bounds of C1's request the expected count is negative and
    the list empty: the first turn of the shrink loop pops an empty
    list and the server ends on the IndexError. *)
Example server_of_minus_one_raises :
  at_ (run [Tick ForkOSError; Tick ForkOSError; Tick ForkOSError]
         (start (-1) 5 "B"))
  = Exited (ByException IndexError).
Proof. reflexivity. Qed.

(** *** A crashed replicant *)

(** X22: the first crash of a settled period.  A settled server
    (sleeping at line 85 with as many stored pids as expected) that
    still has the handler of line 62 for SIGCHLD, and whose replicant
    [z] alone shows as a zombie: the handler takes exactly [z] out of
    the list and calls the non-blocking [waitpid] once; the next steps
    of the loop fork exactly one replicant, append it, and the server is
    settled again with as many stored pids as expected, forking no
    more. *)
Theorem first_crash_is_reaped_and_replaced (c : controller)
    (before after zombies : list Z) (z pid2 : Z) (f1 f3 f4 : fork_result) :
  at_ c = SettleTest →
  sigchld c = SigHandler →
  server_processes c = before ++ z :: after →
  len c = number_of_active_processes c →
  number_of_active_processes c <= maximum_number_of_processes c →
  Py.mem z zombies = true →
  (∀ w, w ∈ before ++ after → Py.mem w zombies = false) →
  pid2 ≠ 0 →
  let c1 := deliver zombies SIGCHLD c in
  let c2 := run [Tick f1; Tick (ForkReturns pid2); Tick f3; Tick f4] c1 in
  server_processes c1 = before ++ after
  ∧ new_events c c1 = [EPrint (MsgChildStopped z); EWaitpidNoHang]
  ∧ count is_reap (new_events c c1) = 1%nat
  ∧ server_processes c2 = (before ++ after) ++ [pid2]
  ∧ new_events c1 c2 = [EFork pid2]
  ∧ len c2 = number_of_active_processes c2
  ∧ number_of_active_processes c2 = number_of_active_processes c
  ∧ at_ c2 = SettleTest
  ∧ ∀ fks, run (map Tick fks) c2 = c2.
Proof.
  intros Hat Hsig Hp Hlen Hmax Hz Hclean Hpid. cbv zeta.
  set (c0 := set_sigchld SigIgnore c).
  assert (Hc1 : deliver zombies SIGCHLD c
                = emit EWaitpidNoHang
                    (set_processes (before ++ after)
                       (emit (EPrint (MsgChildStopped z)) c0))).
  { unfold deliver. rewrite Hat, Hsig. unfold abnormal_child_exit_handler.
    fold c0. f_equal.
    apply (LoopFacts.scan_single zombies z before after Hz Hclean).
    - exact Hp.
    - lia.
    - change (server_processes c0) with (server_processes c).
      rewrite Hp, length_app. cbn [length]. lia. }
  rewrite Hc1.
  set (c1 := emit EWaitpidNoHang _).
  assert (Hlen1 : len c1 = number_of_active_processes c - 1).
  { unfold len in *. change (server_processes c1) with (before ++ after).
    rewrite Hp in Hlen. rewrite length_app in *. cbn [length] in Hlen. lia. }
  assert (Hlog1 : log c1 = log c ++ [EPrint (MsgChildStopped z);
                                     EWaitpidNoHang]).
  { change (log c1) with ((log c ++ [EPrint (MsgChildStopped z)])
                          ++ [EWaitpidNoHang]).
    now rewrite <- app_assoc. }
  assert (Hnew1 : new_events c c1 = [EPrint (MsgChildStopped z);
                                     EWaitpidNoHang]).
  { unfold new_events. rewrite Hlog1. apply drop_app_length. }
  assert (Hrun : run [Tick f1; Tick (ForkReturns pid2); Tick f3; Tick f4] c1
                 = goto SettleTest
                     (set_processes ((before ++ after) ++ [pid2])
                        (emit (EFork pid2) c1))).
  { change (run [Tick f1; Tick (ForkReturns pid2); Tick f3; Tick f4] c1)
      with (step f4 (step f3 (step (ForkReturns pid2) (step f1 c1)))).
    rewrite (LoopFacts.settle_leaves f1 c1)
      by (try exact Hat;
          change (number_of_active_processes c1)
            with (number_of_active_processes c); lia).
    rewrite (LoopFacts.spawn_forks pid2 (goto SpawnTest c1))
      by (try reflexivity;
          change (len (goto SpawnTest c1)) with (len c1);
          change (maximum_number_of_processes (goto SpawnTest c1))
            with (maximum_number_of_processes c); lia).
    rewrite (LoopFacts.append_in_server f3 pid2)
      by (try reflexivity; exact Hpid).
    rewrite LoopFacts.grow_settles; [reflexivity | reflexivity |].
    unfold len in *.
    change (server_processes c1) with (before ++ after) in Hlen1.
    change (Z.of_nat (length ((before ++ after) ++ [pid2]))
            <= number_of_active_processes c).
    rewrite length_app. cbn [length]. lia. }
  rewrite Hrun.
  set (c2 := goto SettleTest _).
  assert (Hlen2 : len c2 = number_of_active_processes c2).
  { unfold len in *.
    change (server_processes c2) with ((before ++ after) ++ [pid2]).
    change (number_of_active_processes c2)
      with (number_of_active_processes c).
    change (server_processes c1) with (before ++ after) in Hlen1.
    rewrite length_app. cbn [length]. lia. }
  split; [reflexivity|]. split; [exact Hnew1|].
  split; [now rewrite Hnew1|]. split; [reflexivity|].
  split.
  { unfold new_events.
    change (log c2) with (log c1 ++ [EFork pid2]). apply drop_app_length. }
  split; [exact Hlen2|]. split; [reflexivity|]. split; [reflexivity|].
  now apply LoopFacts.settled_run.
Qed.

Lemma first_crash_is_reaped_and_replaced_witness :
  let c := run [Tick ForkOSError; Tick ForkOSError; Tick ForkOSError;
                Tick (ForkReturns 11); Tick ForkOSError; Tick ForkOSError;
                Tick ForkOSError; Tick (ForkReturns 12); Tick ForkOSError;
                Tick ForkOSError]
             (start 2 3 "A") in
  let c1 := deliver [11] SIGCHLD c in
  let c2 := run [Tick ForkOSError; Tick (ForkReturns 13); Tick ForkOSError;
                 Tick ForkOSError] c1 in
  server_processes c1 = [] ++ [12]
  ∧ new_events c c1 = [EPrint (MsgChildStopped 11); EWaitpidNoHang]
  ∧ count is_reap (new_events c c1) = 1%nat
  ∧ server_processes c2 = ([] ++ [12]) ++ [13]
  ∧ new_events c1 c2 = [EFork 13]
  ∧ len c2 = number_of_active_processes c2
  ∧ number_of_active_processes c2 = number_of_active_processes c
  ∧ at_ c2 = SettleTest
  ∧ ∀ fks, run (map Tick fks) c2 = c2.
Proof.
  apply (first_crash_is_reaped_and_replaced
           (run [Tick ForkOSError; Tick ForkOSError; Tick ForkOSError;
                 Tick (ForkReturns 11); Tick ForkOSError; Tick ForkOSError;
                 Tick ForkOSError; Tick (ForkReturns 12); Tick ForkOSError;
                 Tick ForkOSError]
              (start 2 3 "A"))
           [] [12] [11] 11 13 ForkOSError ForkOSError ForkOSError).
  - reflexivity.
  - reflexivity.
  - reflexivity.
  - reflexivity.
  - vm_compute. discriminate.
  - reflexivity.
  - intros w Hw. apply list_elem_of_singleton in Hw. subst w. reflexivity.
  - lia.
Defined.

(** C8, on the code: the handler of SIGCHLD sets the signal to SIG_IGN
    (line 172) and a settled server never comes back to line 62.  A
    server with bounds 2 and 3 has settled with the replicants 11 and
    12.  Replicant 11 crashes: the handler removes it, reaps, and the
    loop forks 13; the server is settled again with 12 and 13.  Then 12
    crashes: SIGCHLD is ignored, so whatever [ps] would show and however
    many steps the loop takes, 12 stays in the list, nothing is reaped
    and no replacement is forked. *)
Theorem second_crash_is_not_replaced :
  let settled :=
    run (idle_ticks 1 ++ flat_map spawn_ticks [11; 12] ++ idle_ticks 1)
      (start 2 3 "A") in
  let healed :=
    run [Signal SIGCHLD [11]; Tick ForkOSError; Tick (ForkReturns 13);
         Tick ForkOSError; Tick ForkOSError]
      settled in
  let crashed :=
    run [Signal SIGCHLD [12]; Tick (ForkReturns 14); Tick (ForkReturns 14);
         Tick (ForkReturns 14); Tick (ForkReturns 14)]
      healed in
  server_processes settled = [11; 12]
  ∧ sigchld settled = SigHandler
  ∧ new_events settled healed
    = [EPrint (MsgChildStopped 11); EWaitpidNoHang; EFork 13]
  ∧ server_processes healed = [12; 13]
  ∧ at_ healed = SettleTest
  ∧ number_of_active_processes healed = 2
  ∧ sigchld healed = SigIgnore
  ∧ server_processes crashed = [12; 13]
  ∧ new_events healed crashed = []
  ∧ crashed = healed.
Proof. vm_compute. repeat split. Qed.

(** The handler leaves SIGCHLD ignored, and line 62 registers it again
    only at the top of the outer loop, which a settled server does not
    reach: until then a further SIGCHLD changes nothing. *)
Lemma handler_leaves_sigchld_ignored (zombies : list Z) (c : controller) :
  sigchld (abnormal_child_exit_handler zombies c) = SigIgnore.
Proof.
  unfold abnormal_child_exit_handler.
  assert (H : ∀ fuel i c', sigchld (scan zombies fuel i c') = sigchld c').
  { induction fuel as [|fuel IH]; intros i c'; simpl; [reflexivity|].
    destruct (server_processes c' !! i) as [pid|]; [|reflexivity].
    destruct (Py.mem pid zombies); rewrite IH; reflexivity. }
  change (sigchld (scan zombies
                     (length (server_processes (set_sigchld SigIgnore c))) 0
                     (set_sigchld SigIgnore c)) = SigIgnore).
  now rewrite H.
Qed.

Lemma ignored_sigchld_changes_nothing (zombies : list Z) (c : controller) :
  sigchld c = SigIgnore → deliver zombies SIGCHLD c = c.
Proof.
  intros H. unfold deliver. rewrite H. now destruct (at_ c).
Qed.

(** *** Lowering the expected count of a settled server *)

(** C2, on the code: the test of line 88 is reached from the sleep of
    line 85 whenever the count of stored pids differs from the expected
    one, also when it is above it.  A server with bounds 0 and 3 is
    scaled up once and settles with the replicant 11; SIGUSR2 then
    lowers the expected count to 0.  The next steps fork a second
    replicant, 12, append it, and only then kill 12 and 11. *)
Theorem lowering_expected_count_forks_first :
  let settled :=
    run [Tick ForkOSError; Tick ForkOSError; Signal SIGUSR1 [];
         Tick ForkOSError; Tick (ForkReturns 11); Tick ForkOSError;
         Tick ForkOSError]
      (start 0 3 "A") in
  let lowered := deliver [] SIGUSR2 settled in
  let later :=
    run [Tick ForkOSError; Tick (ForkReturns 12); Tick ForkOSError;
         Tick ForkOSError; Tick ForkOSError; Tick ForkOSError;
         Tick ForkOSError; Tick ForkOSError; Tick ForkOSError;
         Tick ForkOSError; Tick ForkOSError]
      lowered in
  at_ settled = SettleTest
  ∧ server_processes settled = [11]
  ∧ number_of_active_processes settled = 1
  ∧ number_of_active_processes lowered = 0
  ∧ len lowered > number_of_active_processes lowered
  ∧ new_events lowered later
    = [EFork 12]
      ++ shrink_events "A" 12 ++ shrink_events "A" 11
  ∧ server_processes later = []
  ∧ at_ later = LoopTop.
Proof. cbv zeta. repeat split. Qed.

(** * Further properties of the Server *)

Module GrowFacts.

Lemma run_app (acts1 acts2 : list action) (c : controller) :
  run (acts1 ++ acts2) c = run acts2 (run acts1 c).
Proof. unfold run. apply fold_left_app. Qed.

Lemma run_cons (a : action) (acts : list action) (c : controller) :
  run (a :: acts) c = run acts (act c a).
Proof. reflexivity. Qed.

Lemma run_nil (c : controller) : run [] c = c.
Proof. reflexivity. Qed.

(** Only the step that forks reads the fork answer. *)
Lemma step_ignores_fork (f f' : fork_result) (c : controller) :
  at_ c ≠ SpawnTest → step f c = step f' c.
Proof. unfold step. now destruct (at_ c). Qed.

(** One turn of the grow loop with a fork that succeeds. *)
Lemma spawn_cycle (pid2 : Z) (c : controller) :
  at_ c = GrowTest →
  len c < number_of_active_processes c →
  len c < maximum_number_of_processes c →
  pid2 ≠ 0 →
  run (spawn_ticks pid2) c
  = set_processes (server_processes c ++ [pid2]) (emit (EFork pid2) c).
Proof.
  intros Hat Hlt Hmax Hpid.
  change (run (spawn_ticks pid2) c)
    with (step ForkOSError
            (step (ForkReturns pid2)
               (step ForkOSError (step ForkOSError c)))).
  rewrite (LoopFacts.grow_settles ForkOSError c) by (try exact Hat; lia).
  rewrite (LoopFacts.settle_leaves ForkOSError (goto SettleTest c))
    by (try reflexivity;
        change (len (goto SettleTest c)) with (len c);
        change (number_of_active_processes (goto SettleTest c))
          with (number_of_active_processes c); lia).
  rewrite (LoopFacts.spawn_forks pid2 (goto SpawnTest (goto SettleTest c)))
    by (try reflexivity; exact Hmax).
  rewrite (LoopFacts.append_in_server ForkOSError pid2)
    by (try reflexivity; exact Hpid).
  destruct c; cbn in Hat |- *; subst; reflexivity.
Qed.

(** One turn of the grow loop with a fork that raises OSError. *)
Lemma failed_cycle (c : controller) :
  at_ c = GrowTest →
  len c < number_of_active_processes c →
  len c < maximum_number_of_processes c →
  run failed_ticks c = emit EForkFailed c.
Proof.
  intros Hat Hlt Hmax.
  change (run failed_ticks c)
    with (step ForkOSError (step ForkOSError (step ForkOSError c))).
  rewrite (LoopFacts.grow_settles ForkOSError c) by (try exact Hat; lia).
  rewrite (LoopFacts.settle_leaves ForkOSError (goto SettleTest c))
    by (try reflexivity;
        change (len (goto SettleTest c)) with (len c);
        change (number_of_active_processes (goto SettleTest c))
          with (number_of_active_processes c); lia).
  unfold step at 1. cbn [at_ goto].
  change (len (goto SpawnTest (goto SettleTest c))) with (len c).
  change (maximum_number_of_processes (goto SpawnTest (goto SettleTest c)))
    with (maximum_number_of_processes c).
  replace (len c <? maximum_number_of_processes c) with true
    by (symmetry; lia).
  destruct c; cbn in Hat |- *; subst; reflexivity.
Qed.

Lemma emit_all_nil (c : controller) : emit_all [] c = c.
Proof. destruct c; unfold emit_all; cbn. now rewrite app_nil_r. Qed.

Lemma emit_then_all (e : event) (es : list event) (c : controller) :
  emit_all es (emit e c) = emit_all (e :: es) c.
Proof.
  destruct c; unfold emit_all, emit; cbn. now rewrite <- app_assoc.
Qed.

(** The grow loop with forks that succeed: one turn per pid. *)
Lemma grow_loop (pids : list Z) : ∀ c,
  at_ c = GrowTest →
  len c + Z.of_nat (length pids) <= number_of_active_processes c →
  len c + Z.of_nat (length pids) <= maximum_number_of_processes c →
  Forall (λ pid2, pid2 ≠ 0) pids →
  run (flat_map spawn_ticks pids) c
  = set_processes (server_processes c ++ pids)
      (emit_all (map EFork pids) c).
Proof.
  induction pids as [|pid2 pids IH]; intros c Hat Htarget Hmax Hpids.
  - cbn [flat_map map]. rewrite app_nil_r, emit_all_nil.
    destruct c; reflexivity.
  - apply Forall_cons in Hpids as [Hpid Hpids].
    cbn [length] in Htarget, Hmax.
    cbn [flat_map]. rewrite run_app.
    rewrite spawn_cycle by (try assumption; lia).
    rewrite IH; try assumption; try reflexivity.
    + cbn [map]. rewrite <- emit_then_all.
      destruct c; cbn; unfold set_processes, emit_all, emit; cbn.
      now rewrite <- app_assoc.
    + unfold len in *. cbn [server_processes set_processes emit
                            number_of_active_processes].
      rewrite length_app. cbn [length]. lia.
    + unfold len in *. cbn [server_processes set_processes emit
                            maximum_number_of_processes].
      rewrite length_app. cbn [length]. lia.
Qed.

(** [k] forks that raise, one turn each. *)
Lemma failed_loop (k : nat) : ∀ c,
  at_ c = GrowTest →
  len c < number_of_active_processes c →
  len c < maximum_number_of_processes c →
  run (concat (repeat failed_ticks k)) c = emit_all (repeat EForkFailed k) c.
Proof.
  induction k as [|k IH]; intros c Hat Hlt Hmax.
  - cbn. now rewrite emit_all_nil.
  - cbn [repeat concat]. rewrite run_app, failed_cycle by assumption.
    rewrite IH by assumption. apply emit_then_all.
Qed.

End GrowFacts.

(** X1: a server created with [0 <= minimum <= maximum] whose forks
    succeed settles, after one turn of the grow loop per replicant,
    in the sleep of line 85 with exactly [minimum] stored pids, the
    forked ones in the order of their creation; it has asked for exactly
    those forks and later steps change nothing. *)
Theorem server_settles_with_minimum (minimum maximum : Z) (name : string)
    (pids : list Z) :
  minimum <= maximum →
  Z.of_nat (length pids) = minimum →
  Forall (λ pid2, pid2 ≠ 0) pids →
  let c := run (idle_ticks 1 ++ flat_map spawn_ticks pids ++ idle_ticks 1)
             (start minimum maximum name) in
  at_ c = SettleTest
  ∧ server_processes c = pids
  ∧ len c = number_of_active_processes c
  ∧ new_events (start minimum maximum name) c = map EFork pids
  ∧ ∀ fks, run (map Tick fks) c = c.
Proof.
  intros Hle Hlen Hpids. cbv zeta.
  rewrite !GrowFacts.run_app.
  set (c1 := run (idle_ticks 1) (start minimum maximum name)).
  assert (Hgrow : run (flat_map spawn_ticks pids) c1
                  = set_processes pids (emit_all (map EFork pids) c1)).
  { apply (GrowFacts.grow_loop pids c1); try reflexivity; try assumption;
      change (len c1) with 0;
      [change (number_of_active_processes c1) with minimum
      |change (maximum_number_of_processes c1) with maximum]; lia. }
  rewrite Hgrow.
  set (c2 := set_processes pids _).
  assert (Hlen2 : len c2 = number_of_active_processes c2).
  { unfold len. change (server_processes c2) with pids.
    change (number_of_active_processes c2) with minimum. exact Hlen. }
  assert (Hlast : run (idle_ticks 1) c2 = goto SettleTest c2).
  { change (run (idle_ticks 1) c2) with (step ForkOSError c2).
    apply LoopFacts.grow_settles; [reflexivity | lia]. }
  rewrite Hlast.
  split; [reflexivity|]. split; [reflexivity|]. split; [exact Hlen2|].
  split.
  - unfold new_events.
    change (log (goto SettleTest c2))
      with (log (start minimum maximum name) ++ map EFork pids).
    apply drop_app_length.
  - now apply LoopFacts.settled_run.
Qed.

Lemma server_settles_with_minimum_witness :
  let c := run (idle_ticks 1 ++ flat_map spawn_ticks [11; 12] ++ idle_ticks 1)
             (start 2 3 "A") in
  at_ c = SettleTest
  ∧ server_processes c = [11; 12]
  ∧ len c = number_of_active_processes c
  ∧ new_events (start 2 3 "A") c = map EFork [11; 12]
  ∧ ∀ fks, run (map Tick fks) c = c.
Proof.
  apply (server_settles_with_minimum 2 3 "A" [11; 12]).
  - lia.
  - reflexivity.
  - repeat constructor; discriminate.
Defined.

(** X2: SIGUSR1 at a settled server that is below its maximum raises
    the expected count by one, and the loop then forks exactly one
    replicant, appends it at the end of the list and settles again. *)
Theorem scale_up_adds_one_replicant (c : controller) (zombies : list Z)
    (pid2 : Z) :
  at_ c = SettleTest →
  handlers_registered c = true →
  len c = number_of_active_processes c →
  number_of_active_processes c + 1 <= server_maximum_number c →
  len c < maximum_number_of_processes c →
  pid2 ≠ 0 →
  let c' := run (Signal SIGUSR1 zombies :: Tick ForkOSError
                 :: Tick (ForkReturns pid2) :: idle_ticks 2) c in
  c' = set_processes (server_processes c ++ [pid2])
         (emit (EFork pid2)
            (set_active (number_of_active_processes c + 1) c))
  ∧ len c' = number_of_active_processes c'
  ∧ ∀ fks, run (map Tick fks) c' = c'.
Proof.
  intros Hat Hreg Hlen Hroom Hmax Hpid. cbv zeta.
  set (c1 := set_active (number_of_active_processes c + 1) c).
  assert (Hd : deliver zombies SIGUSR1 c = c1).
  { unfold deliver. rewrite Hat, Hreg. unfold increment_active_processes.
    now replace (number_of_active_processes c + 1 >? server_maximum_number c)
      with false by (symmetry; lia). }
  assert (Hrun : run (Signal SIGUSR1 zombies :: Tick ForkOSError
                      :: Tick (ForkReturns pid2) :: idle_ticks 2) c
                 = set_processes (server_processes c ++ [pid2])
                     (emit (EFork pid2) c1)).
  { change (run (Signal SIGUSR1 zombies :: Tick ForkOSError
                 :: Tick (ForkReturns pid2) :: idle_ticks 2) c)
      with (step ForkOSError
              (step ForkOSError
                 (step (ForkReturns pid2)
                    (step ForkOSError (deliver zombies SIGUSR1 c))))).
    rewrite Hd.
    rewrite (LoopFacts.settle_leaves ForkOSError c1)
      by (try exact Hat; change (len c1) with (len c);
          change (number_of_active_processes c1)
            with (number_of_active_processes c + 1); lia).
    rewrite (LoopFacts.spawn_forks pid2 (goto SpawnTest c1))
      by (try reflexivity; exact Hmax).
    rewrite (LoopFacts.append_in_server ForkOSError pid2
               (goto (Append pid2) (emit (EFork pid2) (goto SpawnTest c1))))
      by (try reflexivity; exact Hpid).
    rewrite LoopFacts.grow_settles.
    - subst c1. destruct c; cbn in Hat |- *; subst; reflexivity.
    - reflexivity.
    - unfold len in *.
      cbn [server_processes goto set_processes emit
           number_of_active_processes].
      change (server_processes c1) with (server_processes c).
      change (number_of_active_processes c1)
        with (number_of_active_processes c + 1).
      rewrite length_app. cbn [length]. lia. }
  rewrite Hrun.
  set (c2 := set_processes _ _).
  assert (Hlen2 : len c2 = number_of_active_processes c2).
  { unfold len in *.
    change (server_processes c2) with (server_processes c ++ [pid2]).
    change (number_of_active_processes c2)
      with (number_of_active_processes c + 1).
    rewrite length_app. cbn [length]. lia. }
  split; [reflexivity|]. split; [exact Hlen2|].
  apply LoopFacts.settled_run; [exact Hat | exact Hlen2].
Qed.

Lemma scale_up_adds_one_replicant_witness :
  let c := run (idle_ticks 1 ++ flat_map spawn_ticks [11] ++ idle_ticks 1)
             (start 1 3 "A") in
  let c' := run (Signal SIGUSR1 [] :: Tick ForkOSError
                 :: Tick (ForkReturns 12) :: idle_ticks 2) c in
  c' = set_processes (server_processes c ++ [12])
         (emit (EFork 12) (set_active (number_of_active_processes c + 1) c))
  ∧ len c' = number_of_active_processes c'
  ∧ ∀ fks, run (map Tick fks) c' = c'.
Proof.
  apply (scale_up_adds_one_replicant
           (run (idle_ticks 1 ++ flat_map spawn_ticks [11] ++ idle_ticks 1)
              (start 1 3 "A")) [] 12).
  - reflexivity.
  - reflexivity.
  - reflexivity.
  - vm_compute. discriminate.
  - reflexivity.
  - lia.
Defined.

(** X3: a fork that raises OSError changes nothing but the log, and the
    loop asks again: after any number of failed forks the first fork
    that succeeds adds its pid, and only that one, to the list. *)
Theorem failed_forks_are_retried (k : nat) (pid2 : Z) (c : controller) :
  at_ c = GrowTest →
  len c < number_of_active_processes c →
  len c < maximum_number_of_processes c →
  pid2 ≠ 0 →
  run (concat (repeat failed_ticks k) ++ spawn_ticks pid2) c
  = set_processes (server_processes c ++ [pid2])
      (emit_all (repeat EForkFailed k ++ [EFork pid2]) c).
Proof.
  intros Hat Hlt Hmax Hpid.
  rewrite GrowFacts.run_app, GrowFacts.failed_loop by assumption.
  rewrite GrowFacts.spawn_cycle by (try assumption; reflexivity).
  destruct c; unfold set_processes, emit, emit_all; cbn.
  now rewrite <- app_assoc.
Qed.

Lemma failed_forks_are_retried_witness :
  let c := run (idle_ticks 1) (start 1 3 "A") in
  run (concat (repeat failed_ticks 2) ++ spawn_ticks 11) c
  = set_processes (server_processes c ++ [11])
      (emit_all (repeat EForkFailed 2 ++ [EFork 11]) c).
Proof.
  apply (failed_forks_are_retried 2 11
           (run (idle_ticks 1) (start 1 3 "A"))).
  - reflexivity.
  - reflexivity.
  - reflexivity.
  - lia.
Defined.

Module ScaleFacts.

Lemma deliver_usr1 zombies c :
  handlers_registered c = true → running c →
  deliver zombies SIGUSR1 c = increment_active_processes c.
Proof.
  intros Hreg Hrun. unfold deliver. rewrite Hreg.
  destruct (at_ c) eqn:E; try reflexivity. now destruct (Hrun why).
Qed.

Lemma deliver_usr2 zombies c :
  handlers_registered c = true → running c →
  deliver zombies SIGUSR2 c = decrement_active_processes c.
Proof.
  intros Hreg Hrun. unfold deliver. rewrite Hreg.
  destruct (at_ c) eqn:E; try reflexivity. now destruct (Hrun why).
Qed.

Lemma scale_up_closed_form zombies (n : nat) : ∀ c,
  handlers_registered c = true → running c →
  number_of_active_processes c <= server_maximum_number c →
  number_of_active_processes (run (repeat (Signal SIGUSR1 zombies) n) c)
  = Z.min (server_maximum_number c)
      (number_of_active_processes c + Z.of_nat n).
Proof.
  induction n as [|n IH]; intros c Hreg Hrun Hle.
  - cbn. lia.
  - change (run (repeat (Signal SIGUSR1 zombies) (S n)) c)
      with (run (repeat (Signal SIGUSR1 zombies) n)
              (deliver zombies SIGUSR1 c)).
    rewrite deliver_usr1 by assumption.
    unfold increment_active_processes.
    destruct (Z.gtb_spec (number_of_active_processes c + 1)
                (server_maximum_number c)) as [Hgt|Hgt].
    + rewrite IH; [cbn; lia | exact Hreg | exact Hrun | cbn; lia].
    + rewrite IH; [cbn; lia | exact Hreg | exact Hrun | cbn; lia].
Qed.

Lemma scale_down_closed_form zombies (n : nat) : ∀ c,
  handlers_registered c = true → running c →
  server_minimum_number c <= number_of_active_processes c →
  number_of_active_processes (run (repeat (Signal SIGUSR2 zombies) n) c)
  = Z.max (server_minimum_number c)
      (number_of_active_processes c - Z.of_nat n).
Proof.
  induction n as [|n IH]; intros c Hreg Hrun Hle.
  - cbn. lia.
  - change (run (repeat (Signal SIGUSR2 zombies) (S n)) c)
      with (run (repeat (Signal SIGUSR2 zombies) n)
              (deliver zombies SIGUSR2 c)).
    rewrite deliver_usr2 by assumption.
    unfold decrement_active_processes.
    destruct (Z.ltb_spec (number_of_active_processes c - 1)
                (server_minimum_number c)) as [Hlt|Hlt].
    + rewrite IH; [cbn; lia | exact Hreg | exact Hrun | cbn; lia].
    + rewrite IH; [cbn; lia | exact Hreg | exact Hrun | cbn; lia].
Qed.

Lemma spawn_breaks fk c :
  at_ c = SpawnTest → maximum_number_of_processes c <= len c →
  step fk c = goto ShrinkTest c.
Proof.
  intros Hat Hge. unfold step. rewrite Hat.
  now replace (len c <? maximum_number_of_processes c) with false
    by (symmetry; lia).
Qed.

End ScaleFacts.

(** X4: the expected count under repeated requests.  [n] SIGUSR1 in a
    row at a running server with registered handlers leave it at
    [min maximum (count + n)], and [n] SIGUSR2 at
    [max minimum (count - n)]: requests beyond a bound are lost. *)
Theorem repeated_scaling_saturates (c : controller) (zombies : list Z)
    (n : nat) :
  handlers_registered c = true →
  running c →
  server_minimum_number c <= number_of_active_processes c
    <= server_maximum_number c →
  number_of_active_processes (run (repeat (Signal SIGUSR1 zombies) n) c)
  = Z.min (server_maximum_number c)
      (number_of_active_processes c + Z.of_nat n)
  ∧ number_of_active_processes (run (repeat (Signal SIGUSR2 zombies) n) c)
    = Z.max (server_minimum_number c)
        (number_of_active_processes c - Z.of_nat n).
Proof.
  intros Hreg Hrun [Hmin Hmax]. split.
  - now apply ScaleFacts.scale_up_closed_form.
  - now apply ScaleFacts.scale_down_closed_form.
Qed.

Lemma repeated_scaling_saturates_witness :
  let c := run (idle_ticks 1) (start 1 3 "A") in
  number_of_active_processes (run (repeat (Signal SIGUSR1 []) 5) c)
  = Z.min (server_maximum_number c)
      (number_of_active_processes c + Z.of_nat 5)
  ∧ number_of_active_processes (run (repeat (Signal SIGUSR2 []) 5) c)
    = Z.max (server_minimum_number c)
        (number_of_active_processes c - Z.of_nat 5).
Proof.
  apply (repeated_scaling_saturates (run (idle_ticks 1) (start 1 3 "A"))).
  - reflexivity.
  - intros why. vm_compute. discriminate.
  - vm_compute. split; discriminate.
Defined.

(** X5: a request that would leave the bounds is a no-op for the pool.
    SIGUSR1 at a settled server whose count is at the maximum, or
    SIGUSR2 at one whose count is at the minimum, only prints the
    notice; the server stays in its sleep and later steps neither fork
    nor kill. *)
Theorem saturated_request_is_noop (c : controller) (zombies : list Z) :
  at_ c = SettleTest →
  handlers_registered c = true →
  len c = number_of_active_processes c →
  (number_of_active_processes c + 1 > server_maximum_number c →
   deliver zombies SIGUSR1 c = emit (EPrint MsgMaximumReached) c
   ∧ ∀ fks, run (map Tick fks) (deliver zombies SIGUSR1 c)
            = deliver zombies SIGUSR1 c)
  ∧ (number_of_active_processes c - 1 < server_minimum_number c →
     deliver zombies SIGUSR2 c = emit (EPrint MsgMinimumReached) c
     ∧ ∀ fks, run (map Tick fks) (deliver zombies SIGUSR2 c)
              = deliver zombies SIGUSR2 c).
Proof.
  intros Hat Hreg Hlen. split; intros Hsat.
  - assert (Hd : deliver zombies SIGUSR1 c
                 = emit (EPrint MsgMaximumReached) c).
    { unfold deliver. rewrite Hat, Hreg. unfold increment_active_processes.
      now replace (number_of_active_processes c + 1
                   >? server_maximum_number c) with true
        by (symmetry; apply Z.gtb_lt; lia). }
    rewrite Hd. split; [reflexivity|].
    apply LoopFacts.settled_run; [exact Hat | exact Hlen].
  - assert (Hd : deliver zombies SIGUSR2 c
                 = emit (EPrint MsgMinimumReached) c).
    { unfold deliver. rewrite Hat, Hreg. unfold decrement_active_processes.
      now replace (number_of_active_processes c - 1
                   <? server_minimum_number c) with true
        by (symmetry; lia). }
    rewrite Hd. split; [reflexivity|].
    apply LoopFacts.settled_run; [exact Hat | exact Hlen].
Qed.

Lemma saturated_request_is_noop_witness :
  let c := run (idle_ticks 1 ++ flat_map spawn_ticks [11] ++ idle_ticks 1)
             (start 1 1 "A") in
  (number_of_active_processes c + 1 > server_maximum_number c →
   deliver [] SIGUSR1 c = emit (EPrint MsgMaximumReached) c
   ∧ ∀ fks, run (map Tick fks) (deliver [] SIGUSR1 c) = deliver [] SIGUSR1 c)
  ∧ (number_of_active_processes c - 1 < server_minimum_number c →
     deliver [] SIGUSR2 c = emit (EPrint MsgMinimumReached) c
     ∧ ∀ fks, run (map Tick fks) (deliver [] SIGUSR2 c)
              = deliver [] SIGUSR2 c).
Proof.
  apply (saturated_request_is_noop
           (run (idle_ticks 1 ++ flat_map spawn_ticks [11] ++ idle_ticks 1)
              (start 1 1 "A")) []).
  - reflexivity.
  - reflexivity.
  - reflexivity.
Defined.

(** X6: SIGUSR2 at a settled server that holds as many pids as its
    maximum allows.  The test of line 88 fails, so nothing is forked:
    the shrink loop pops exactly the most recently appended pid and
    sends it SIGKILL.  The server is then at the [os.wait()] of line
    132; what that call answers is not part of this statement. *)
Theorem scale_down_at_maximum_kills_last (c : controller)
    (zombies front : list Z) (last : Z) :
  at_ c = SettleTest →
  handlers_registered c = true →
  len c = number_of_active_processes c →
  len c = maximum_number_of_processes c →
  server_minimum_number c <= number_of_active_processes c - 1 →
  server_processes c = front ++ [last] →
  run (Signal SIGUSR2 zombies :: idle_ticks 4) c
  = goto WaitPopped
      (emit (EKill last SIGKILL)
         (set_processes front
            (set_active (number_of_active_processes c - 1) c))).
Proof.
  intros Hat Hreg Hlen Hfull Hmin Hp.
  set (c1 := set_active (number_of_active_processes c - 1) c).
  assert (Hfront : Z.of_nat (length front) = number_of_active_processes c - 1).
  { unfold len in Hlen. rewrite Hp, length_app in Hlen.
    cbn [length] in Hlen. lia. }
  assert (Hd : deliver zombies SIGUSR2 c = c1).
  { unfold deliver. rewrite Hat, Hreg. unfold decrement_active_processes.
    now replace (number_of_active_processes c - 1 <? server_minimum_number c)
      with false by (symmetry; lia). }
  change (run (Signal SIGUSR2 zombies :: idle_ticks 4) c)
    with (step ForkOSError
            (step ForkOSError
               (step ForkOSError
                  (step ForkOSError (deliver zombies SIGUSR2 c))))).
  rewrite Hd.
  rewrite (LoopFacts.settle_leaves ForkOSError c1)
    by (try exact Hat; change (len c1) with (len c);
        change (number_of_active_processes c1)
          with (number_of_active_processes c - 1); lia).
  rewrite (ScaleFacts.spawn_breaks ForkOSError (goto SpawnTest c1))
    by (try reflexivity; change (len (goto SpawnTest c1)) with (len c);
        change (maximum_number_of_processes (goto SpawnTest c1))
          with (maximum_number_of_processes c); lia).
  destruct (LoopFacts.shrink_turn (goto ShrinkTest (goto SpawnTest c1))
              front last ForkOSError ForkOSError ForkOSError)
    as (_ & Hkill & _); [reflexivity | exact Hp | |].
  { change (number_of_active_processes (goto ShrinkTest (goto SpawnTest c1)))
      with (number_of_active_processes c - 1). lia. }
  rewrite Hkill. subst c1.
  destruct c; cbn in Hat |- *; subst; reflexivity.
Qed.

Lemma scale_down_at_maximum_kills_last_witness :
  let c := run (Signal SIGUSR1 [] :: Tick ForkOSError
                :: Tick (ForkReturns 13) :: idle_ticks 2)
             (run (idle_ticks 1 ++ flat_map spawn_ticks [11; 12]
                   ++ idle_ticks 1) (start 2 3 "A")) in
  run (Signal SIGUSR2 [] :: idle_ticks 4) c
  = goto WaitPopped
      (emit (EKill 13 SIGKILL)
         (set_processes [11; 12]
            (set_active (number_of_active_processes c - 1) c))).
Proof.
  apply (scale_down_at_maximum_kills_last
           (run (Signal SIGUSR1 [] :: Tick ForkOSError
                 :: Tick (ForkReturns 13) :: idle_ticks 2)
              (run (idle_ticks 1 ++ flat_map spawn_ticks [11; 12]
                    ++ idle_ticks 1) (start 2 3 "A")))
           [] [11; 12] 13).
  - reflexivity.
  - reflexivity.
  - reflexivity.
  - reflexivity.
  - vm_compute. discriminate.
  - reflexivity.
Defined.

(** X7: SIGUSR2 at a settled server that is below its maximum.  The
    loop first forks one more replicant (line 88 only compares with the
    maximum) and appends it; only then does the test of line 78 fail,
    and the first turn of the shrink loop pops that new replicant and
    sends it SIGKILL.  The server is then at the [os.wait()] of line
    132 with the list it had; what that call answers is not part of
    this statement. *)
Theorem scale_down_below_maximum_forks_first (c : controller)
    (zombies : list Z) (pid2 : Z) :
  at_ c = SettleTest →
  handlers_registered c = true →
  len c = number_of_active_processes c →
  len c < maximum_number_of_processes c →
  server_minimum_number c <= number_of_active_processes c - 1 →
  pid2 ≠ 0 →
  run (Signal SIGUSR2 zombies :: Tick ForkOSError
       :: Tick (ForkReturns pid2) :: idle_ticks 4) c
  = goto WaitPopped
      (emit_all [EFork pid2; EKill pid2 SIGKILL]
         (set_active (number_of_active_processes c - 1) c)).
Proof.
  intros Hat Hreg Hlen Hroom Hmin Hpid.
  set (c1 := set_active (number_of_active_processes c - 1) c).
  set (c2 := goto (Append pid2) (emit (EFork pid2) c1)).
  set (c3 := goto GrowTest
               (set_processes (server_processes c2 ++ [pid2]) c2)).
  replace (Signal SIGUSR2 zombies :: Tick ForkOSError
           :: Tick (ForkReturns pid2) :: idle_ticks 4)
    with ([Signal SIGUSR2 zombies; Tick ForkOSError;
           Tick (ForkReturns pid2)] ++ idle_ticks 4)
    by reflexivity.
  rewrite GrowFacts.run_app.
  rewrite (LoopFacts.settled_scale_down_forks c zombies ForkOSError pid2)
    by assumption.
  fold c1. fold c2.
  change (run (idle_ticks 4) c2)
    with (step ForkOSError
            (step ForkOSError (step ForkOSError (step ForkOSError c2)))).
  rewrite (LoopFacts.append_in_server ForkOSError pid2 c2)
    by (try reflexivity; exact Hpid).
  fold c3.
  rewrite (LoopFacts.grow_gives_up ForkOSError c3)
    by (try reflexivity; unfold len;
        change (server_processes c3) with (server_processes c ++ [pid2]);
        change (number_of_active_processes c3)
          with (number_of_active_processes c - 1);
        unfold len in Hlen; rewrite length_app; cbn [length]; lia).
  destruct (LoopFacts.shrink_turn (goto ShrinkTest c3)
              (server_processes c) pid2 ForkOSError ForkOSError ForkOSError)
    as (_ & Hkill & _); [reflexivity | reflexivity | |].
  { change (number_of_active_processes (goto ShrinkTest c3))
      with (number_of_active_processes c - 1). unfold len in Hlen. lia. }
  rewrite Hkill. subst c3 c2 c1.
  destruct c; cbn in Hat |- *; subst.
  cbv [emit_all set_processes goto emit set_active
       server_name maximum_number_of_processes
       server_minimum_number server_maximum_number
       number_of_active_processes server_processes sigchld
       handlers_registered at_ log].
  now rewrite <- !app_assoc.
Qed.

Lemma scale_down_below_maximum_forks_first_witness :
  let c := run (Signal SIGUSR1 [] :: Tick ForkOSError
                :: Tick (ForkReturns 11) :: idle_ticks 2)
             (run (idle_ticks 2) (start 0 3 "A")) in
  run (Signal SIGUSR2 [] :: Tick ForkOSError
       :: Tick (ForkReturns 12) :: idle_ticks 4) c
  = goto WaitPopped
      (emit_all [EFork 12; EKill 12 SIGKILL]
         (set_active (number_of_active_processes c - 1) c)).
Proof.
  apply (scale_down_below_maximum_forks_first
           (run (Signal SIGUSR1 [] :: Tick ForkOSError
                 :: Tick (ForkReturns 11) :: idle_ticks 2)
              (run (idle_ticks 2) (start 0 3 "A")))
           [] 12).
  - reflexivity.
  - reflexivity.
  - reflexivity.
  - reflexivity.
  - vm_compute. discriminate.
  - lia.
Defined.

(** ** What the list of stored pids never does *)

Module CapFacts.

Lemma pop_none {A} (l : list A) : Py.pop l = None → l = [].
Proof.
  destruct l as [|x l]; [reflexivity|]. simpl.
  destruct (Py.pop l) as [[front y]|]; discriminate.
Qed.

Lemma pop_split {A} (l : list A) : ∀ front x,
  Py.pop l = Some (front, x) → l = front ++ [x].
Proof.
  induction l as [|y l IH]; intros front x; simpl; [discriminate|].
  destruct (Py.pop l) as [[front' x']|] eqn:E.
  - intros [= <- <-]. now rewrite (IH front' x' eq_refl).
  - intros [= <- <-]. now rewrite (pop_none l E).
Qed.

Lemma remove_length (x : Z) (l : list Z) :
  (length (Py.remove x l) <= length l)%nat.
Proof.
  induction l as [|y l IH]; simpl; [lia|].
  destruct (y =? x); simpl; lia.
Qed.

Lemma remove_length_in (x : Z) (l : list Z) :
  x ∈ l → S (length (Py.remove x l)) = length l.
Proof.
  induction l as [|y l IH]; simpl; intros Hin.
  - now apply elem_of_nil in Hin.
  - destruct (Z.eqb_spec y x) as [->|Hne]; [reflexivity|].
    apply elem_of_cons in Hin as [->|Hin]; [congruence|].
    simpl. now rewrite IH.
Qed.

(** The scan only shortens the list; it moves neither the program
    point nor the maximum. *)
Lemma scan_shape zombies fuel : ∀ i c,
  (length (server_processes (scan zombies fuel i c))
   <= length (server_processes c))%nat
  ∧ at_ (scan zombies fuel i c) = at_ c
  ∧ maximum_number_of_processes (scan zombies fuel i c)
    = maximum_number_of_processes c.
Proof.
  induction fuel as [|fuel IH]; intros i c; simpl; [repeat split; lia|].
  destruct (server_processes c !! i) as [pid|]; [|repeat split; lia].
  destruct (Py.mem pid zombies); [|apply IH].
  destruct (IH (S i)
              (set_processes (Py.remove pid (server_processes c))
                 (emit (EPrint (MsgChildStopped pid)) c)))
    as (Hlen & Hat & Hmax).
  rewrite Hat, Hmax. repeat split; try reflexivity.
  etransitivity; [exact Hlen|]. apply remove_length.
Qed.

Lemma handler_shape zombies c :
  (length (server_processes (abnormal_child_exit_handler zombies c))
   <= length (server_processes c))%nat
  ∧ at_ (abnormal_child_exit_handler zombies c) = at_ c
  ∧ maximum_number_of_processes (abnormal_child_exit_handler zombies c)
    = maximum_number_of_processes c.
Proof.
  unfold abnormal_child_exit_handler.
  destruct (scan_shape zombies
              (length (server_processes (set_sigchld SigIgnore c))) 0
              (set_sigchld SigIgnore c)) as (Hlen & Hat & Hmax).
  repeat split; [exact Hlen | exact Hat | exact Hmax].
Qed.

(** A transition that shortens the list, keeps the maximum and does
    not arrive at line 94 keeps the cap. *)
Lemma capped_shorter c c' :
  capped c →
  (length (server_processes c') <= length (server_processes c))%nat →
  maximum_number_of_processes c' = maximum_number_of_processes c →
  (∀ pid2, at_ c' = Append pid2 → at_ c = Append pid2) →
  capped c'.
Proof.
  intros [Hle Happ] Hlen Hmax Hat. unfold capped, len in *.
  rewrite Hmax. split; [lia|].
  intros pid2 E. specialize (Happ pid2 (Hat pid2 E)). lia.
Qed.

Lemma raise_shape c :
  server_processes (raise_OSError c) = server_processes c
  ∧ maximum_number_of_processes (raise_OSError c)
    = maximum_number_of_processes c
  ∧ ∀ pid2, at_ (raise_OSError c) = Append pid2 → at_ c = Append pid2.
Proof.
  unfold raise_OSError.
  destruct (at_ c) eqn:E; cbn; rewrite ?E; repeat split; try discriminate;
    auto.
Qed.

Lemma handler_raises_shape zombies c :
  (length (server_processes (abnormal_child_exit_handler_raises zombies c))
   <= length (server_processes c))%nat
  ∧ maximum_number_of_processes (abnormal_child_exit_handler_raises zombies c)
    = maximum_number_of_processes c
  ∧ ∀ pid2, at_ (abnormal_child_exit_handler_raises zombies c) = Append pid2 →
            at_ c = Append pid2.
Proof.
  unfold abnormal_child_exit_handler_raises. cbv zeta.
  destruct (scan_shape zombies
              (length (server_processes (set_sigchld SigIgnore c))) 0
              (set_sigchld SigIgnore c)) as (Hlen & Hat & Hmax).
  remember (scan zombies
              (length (server_processes (set_sigchld SigIgnore c))) 0
              (set_sigchld SigIgnore c)) as c2 eqn:Ec2. clear Ec2.
  destruct (raise_shape (emit EWaitpidRaised c2)) as (Hp & Hm & Ha).
  rewrite Hp, Hm. split; [exact Hlen|]. split; [exact Hmax|].
  intros pid2 E. apply Ha in E.
  change (at_ c2 = Append pid2) in E. rewrite Hat in E. exact E.
Qed.

Lemma kill_live_shape fuel : ∀ schedule i c,
  (length (server_processes (kill_live schedule fuel i c).1)
   <= length (server_processes c))%nat
  ∧ maximum_number_of_processes (kill_live schedule fuel i c).1
    = maximum_number_of_processes c
  ∧ ∀ pid2, at_ (kill_live schedule fuel i c).1 = Append pid2 →
            at_ c = Append pid2.
Proof.
  induction fuel as [|fuel IH]; intros schedule i c; [now repeat split|].
  cbn [kill_live].
  destruct (server_processes c !! i) as [pid|]; [|now repeat split].
  destruct schedule as [|[|zombies [|]|] later]; cbv zeta.
  - apply (IH [] (S i) (emit (EKill pid SIGKILL) c)).
  - apply (IH later (S i) (emit (EKill pid SIGKILL) c)).
  - destruct (sigchld (emit (EKill pid SIGKILL) c));
      try apply (IH later (S i) (emit (EKill pid SIGKILL) c)).
    destruct (IH later (S i)
                (abnormal_child_exit_handler zombies
                   (emit (EKill pid SIGKILL) c))) as (Hlen & Hmax & Hat).
    destruct (handler_shape zombies (emit (EKill pid SIGKILL) c))
      as (Hlen' & Hat' & Hmax').
    split; [etransitivity; [exact Hlen | exact Hlen']|].
    split; [now rewrite Hmax, Hmax'|].
    intros pid2 E. apply Hat in E. now rewrite Hat' in E.
  - destruct (sigchld (emit (EKill pid SIGKILL) c));
      try apply (IH later (S i) (emit (EKill pid SIGKILL) c)).
    apply (handler_raises_shape zombies (emit (EKill pid SIGKILL) c)).
  - cbn [fst].
    destruct (raise_shape (emit (EKillRaised pid SIGKILL) c))
      as (Hp & Hm & Ha).
    rewrite Hp, Hm. split; [reflexivity|]. split; [reflexivity|]. exact Ha.
Qed.

Lemma terminate_shape schedule c :
  (length (server_processes (terminate_replicants schedule c))
   <= length (server_processes c))%nat
  ∧ maximum_number_of_processes (terminate_replicants schedule c)
    = maximum_number_of_processes c
  ∧ ∀ pid2, at_ (terminate_replicants schedule c) = Append pid2 →
            at_ c = Append pid2.
Proof.
  unfold terminate_replicants.
  pose proof (kill_live_shape (length (server_processes c)) schedule 0 c)
    as H.
  destruct (kill_live schedule (length (server_processes c)) 0 c)
    as [c1 [|]]; [|exact H].
  destruct H as (Hlen & Hmax & _).
  split; [exact Hlen|]. split; [exact Hmax|]. discriminate.
Qed.

Lemma step_maximum fk c :
  maximum_number_of_processes (step fk c) = maximum_number_of_processes c.
Proof.
  unfold step.
  destruct (at_ c); simpl;
    repeat match goal with
           | |- context [if ?b then _ else _] => destruct b
           | |- context [match ?x with _ => _ end] => destruct x
           end; reflexivity.
Qed.

Lemma deliver_maximum zombies s c :
  maximum_number_of_processes (deliver zombies s c)
  = maximum_number_of_processes c.
Proof.
  unfold deliver.
  destruct (at_ c); try reflexivity;
    (destruct s;
     [ destruct (sigchld c); try reflexivity; apply handler_shape
     | destruct (handlers_registered c); [|reflexivity];
       unfold increment_active_processes;
       now destruct (_ >? _)
     | destruct (handlers_registered c); [|reflexivity];
       unfold decrement_active_processes;
       now destruct (_ <? _)
     | destruct (handlers_registered c); [|reflexivity];
       apply terminate_shape
     | reflexivity ]).
Qed.

Lemma step_capped fk c : capped c → capped (step fk c).
Proof.
  intros [Hle Happ]. unfold step.
  destruct (at_ c) eqn:E; unfold capped, len in *.
  - split; [exact Hle | discriminate].
  - destruct (_ <=? _); (split; [exact Hle | discriminate]).
  - destruct (_ =? _); [split; [exact Hle|]|split; [exact Hle|discriminate]].
    intros pid2. rewrite E. discriminate.
  - destruct (Z.ltb_spec (Z.of_nat (length (server_processes c)))
                (maximum_number_of_processes c)) as [Hlt|Hge].
    + destruct fk; (split; [exact Hle|]); [intros _ _; exact Hlt|discriminate].
    + split; [exact Hle | discriminate].
  - specialize (Happ pid2 eq_refl).
    destruct (pid2 =? 0); (split; [|discriminate]); cbn;
      rewrite length_app; cbn [length]; lia.
  - destruct (_ >? _); [|split; [exact Hle | discriminate]].
    destruct (Py.pop (server_processes c)) as [[rest p]|] eqn:Hpop;
      [|split; [exact Hle | discriminate]].
    apply pop_split in Hpop. split; [|discriminate]. cbn.
    rewrite Hpop, length_app in Hle. cbn [length] in Hle. lia.
  - split; [exact Hle | discriminate].
  - split; [exact Hle | discriminate].
  - split; [exact Hle|]. intros pid2. rewrite E. discriminate.
  - split; [exact Hle|]. intros pid2. rewrite E. discriminate.
  - split; [exact Hle|]. intros pid2. rewrite E. discriminate.
Qed.

Lemma deliver_capped zombies s c : capped c → capped (deliver zombies s c).
Proof.
  intros Hc.
  assert (Hkeep : ∀ c', (length (server_processes c')
                         <= length (server_processes c))%nat →
                        at_ c' = at_ c →
                        maximum_number_of_processes c'
                        = maximum_number_of_processes c → capped c').
  { intros c' Hlen Hat Hmax. destruct Hc as [Hle Happ].
    unfold capped, len in *. rewrite Hat, Hmax. split; [lia|].
    intros pid2 E. specialize (Happ pid2 E). lia. }
  assert (Hexit : ∀ why, capped (goto (Exited why) c)).
  { intros why. destruct Hc as [Hle _]. split; [exact Hle | discriminate]. }
  unfold deliver.
  destruct (at_ c) eqn:E; try exact Hc;
    (destruct s;
     [ destruct (sigchld c); try exact Hc;
       destruct (handler_shape zombies c) as (Hlen & Hat & Hmax);
       apply Hkeep; [exact Hlen | now rewrite Hat | exact Hmax]
     | destruct (handlers_registered c); [|apply Hexit];
       unfold increment_active_processes; destruct (_ >? _);
       apply Hkeep; (reflexivity || exact E)
     | destruct (handlers_registered c); [|apply Hexit];
       unfold decrement_active_processes; destruct (_ <? _);
       apply Hkeep; (reflexivity || exact E)
     | destruct (handlers_registered c); [|apply Hexit];
       destruct (terminate_shape [] c) as (Hlen & Hmax & Hat);
       now apply (capped_shorter c)
     | apply Hexit ]).
Qed.

(** The steps and deliveries with the other answers keep the cap and
    the maximum as well. *)
Lemma other_answers_capped a c :
  match a with Tick _ | Signal _ _ => False | _ => True end →
  capped c →
  capped (act c a)
  ∧ maximum_number_of_processes (act c a) = maximum_number_of_processes c.
Proof.
  intros Ha Hc.
  assert (Hshape : ∀ c',
            (length (server_processes c') <= length (server_processes c))%nat
            ∧ maximum_number_of_processes c' = maximum_number_of_processes c
            ∧ (∀ pid2, at_ c' = Append pid2 → at_ c = Append pid2) →
            capped c'
            ∧ maximum_number_of_processes c' = maximum_number_of_processes c).
  { intros c' (Hlen & Hmax & Hat). split; [|exact Hmax].
    now apply (capped_shorter c). }
  assert (Hstep : capped (step ForkOSError c)
                  ∧ maximum_number_of_processes (step ForkOSError c)
                    = maximum_number_of_processes c).
  { split; [now apply step_capped | apply step_maximum]. }
  assert (Hsame : capped c
                  ∧ maximum_number_of_processes c
                    = maximum_number_of_processes c) by now split.
  assert (Hexit : ∀ why,
            capped (goto (Exited why) c)
            ∧ maximum_number_of_processes (goto (Exited why) c)
              = maximum_number_of_processes c).
  { intros why. apply Hshape. repeat split; [reflexivity | discriminate]. }
  destruct a as [fk|s zombies| |zombies waitpid|zombies|schedule];
    try contradiction; cbn [act].
  - unfold step_raises. destruct (at_ c) eqn:E; try exact Hstep.
    + apply Hshape.
      destruct (raise_shape (emit (EKillRaised pid SIGKILL) c))
        as (Hp & Hm & Hat).
      rewrite Hp, Hm. repeat split; try reflexivity.
      intros pid2 E2. apply Hat in E2.
      change (at_ c = Append pid2) in E2. congruence.
    + apply Hshape.
      destruct (raise_shape (emit EWaitRaised c)) as (Hp & Hm & Hat).
      rewrite Hp, Hm. repeat split; try reflexivity.
      intros pid2 E2. apply Hat in E2.
      change (at_ c = Append pid2) in E2. congruence.
  - unfold step_wait_chld. destruct (at_ c) eqn:E; try exact Hstep.
    destruct (sigchld c); try exact Hstep.
    destruct waitpid; apply Hshape.
    + destruct (handler_shape zombies (emit EWait c)) as (Hlen & _ & Hmax).
      split; [exact Hlen|]. split; [exact Hmax | discriminate].
    + destruct (handler_raises_shape zombies (emit EWait c))
        as (Hlen & Hmax & Hat).
      split; [exact Hlen|]. split; [exact Hmax|].
      intros pid2 E2. apply Hat in E2.
      change (at_ c = Append pid2) in E2. congruence.
  - pose proof (Hshape _ (handler_raises_shape zombies c)) as Hr.
    unfold deliver_chld_raises.
    destruct (at_ c); try exact Hsame;
      (destruct (sigchld c); try exact Hsame; exact Hr).
  - pose proof (Hshape _ (terminate_shape schedule c)) as Hr.
    unfold deliver_term.
    destruct (at_ c); try exact Hsame;
      (destruct (handlers_registered c); [exact Hr | apply Hexit]).
Qed.

Lemma run_capped acts : ∀ c,
  capped c →
  capped (run acts c)
  ∧ maximum_number_of_processes (run acts c) = maximum_number_of_processes c.
Proof.
  unfold run. induction acts as [|a acts IH]; intros c Hc; simpl.
  - split; [exact Hc | reflexivity].
  - assert (Hact : capped (act c a)
                   ∧ maximum_number_of_processes (act c a)
                     = maximum_number_of_processes c).
    { destruct a as [fk|s zombies| |zombies waitpid|zombies|schedule];
        try (now apply other_answers_capped).
      - split; [now apply step_capped | apply step_maximum].
      - split; [now apply deliver_capped | apply deliver_maximum]. }
    destruct Hact as [Hc1 Hm1].
    destruct (IH (act c a) Hc1) as [H1 H2].
    split; [exact H1|]. now rewrite H2.
Qed.

End CapFacts.

(** X8: a server never stores more pids than its maximum.  For a
    server created with a non-negative maximum this holds after every
    interleaving of loop steps and signals. *)
Theorem stored_pids_never_exceed_maximum (minimum maximum : Z)
    (name : string) (acts : list action) :
  0 <= maximum →
  len (run acts (start minimum maximum name)) <= maximum.
Proof.
  intros Hmax.
  assert (Hstart : capped (start minimum maximum name)).
  { split; [exact Hmax | discriminate]. }
  destruct (CapFacts.run_capped acts _ Hstart) as [[Hle _] Hsame].
  rewrite Hsame in Hle. exact Hle.
Qed.

Lemma stored_pids_never_exceed_maximum_witness :
  len (run (idle_ticks 1 ++ flat_map spawn_ticks [11; 12; 13; 14]
            ++ [Signal SIGUSR1 []; Signal SIGUSR1 []] ++ idle_ticks 6)
         (start 1 2 "A")) <= 2.
Proof. apply stored_pids_never_exceed_maximum. lia. Defined.

(** ** The SIGCHLD handler in general *)

Module ScanFacts.

Lemma live_remove zombies (z : Z) (l : list Z) :
  Py.mem z zombies = true → live zombies (Py.remove z l) = live zombies l.
Proof.
  intros Hz. unfold live.
  induction l as [|y l IH]; simpl; [reflexivity|].
  destruct (Z.eqb_spec y z) as [->|Hne].
  - now rewrite Hz.
  - simpl. now rewrite IH.
Qed.

(** What the scan does to the list and to the log: it keeps every pid
    that is not shown as a zombie, and prints one notice per pid it
    removes. *)
Lemma scan_effect zombies fuel : ∀ i c,
  live zombies (server_processes (scan zombies fuel i c))
  = live zombies (server_processes c)
  ∧ sigchld (scan zombies fuel i c) = sigchld c
  ∧ ∃ stopped,
      log (scan zombies fuel i c)
      = log c ++ map (λ pid, EPrint (MsgChildStopped pid)) stopped
      ∧ Forall (λ pid, Py.mem pid zombies = true) stopped
      ∧ (length (server_processes (scan zombies fuel i c)) + length stopped
         = length (server_processes c))%nat.
Proof.
  induction fuel as [|fuel IH]; intros i c; simpl.
  - repeat split. exists []. cbn. rewrite app_nil_r. repeat split; [|lia].
    constructor.
  - destruct (server_processes c !! i) as [pid|] eqn:E.
    2:{ repeat split. exists []. cbn. rewrite app_nil_r.
        repeat split; [constructor | lia]. }
    destruct (Py.mem pid zombies) eqn:Hz; [|apply IH].
    destruct (IH (S i)
                (set_processes (Py.remove pid (server_processes c))
                   (emit (EPrint (MsgChildStopped pid)) c)))
      as (Hlive & Hsig & stopped & Hlog & Hall & Hlen).
    rewrite Hlive, Hsig. cbn [server_processes set_processes emit sigchld].
    split; [now apply live_remove|]. split; [reflexivity|].
    exists (pid :: stopped). rewrite Hlog.
    cbn [log set_processes emit map]. rewrite <- app_assoc.
    split; [reflexivity|]. split; [now constructor|].
    cbn [server_processes set_processes emit] in Hlen.
    pose proof (CapFacts.remove_length_in pid (server_processes c)
                  (list_elem_of_lookup_2 _ _ _ E)) as Hrem.
    cbn [length]. lia.
Qed.

(** From index [i] on nothing is shown as a zombie: the scan is done. *)
Lemma scan_clean_from zombies fuel : ∀ i c,
  (∀ j w, (i <= j)%nat → server_processes c !! j = Some w →
          Py.mem w zombies = false) →
  scan zombies fuel i c = c.
Proof.
  induction fuel as [|fuel IH]; intros i c Hclean; simpl; [reflexivity|].
  destruct (server_processes c !! i) as [pid|] eqn:E; [|reflexivity].
  rewrite (Hclean i pid) by (try exact E; lia).
  apply IH. intros j w Hj. apply Hclean. lia.
Qed.

(** The pid stored right after a removed zombie is never looked at. *)
Lemma scan_skips_next zombies z1 z2 before after :
  Py.mem z1 zombies = true →
  (∀ w, w ∈ before ++ after → Py.mem w zombies = false) →
  ∀ fuel i c,
  server_processes c = before ++ z1 :: z2 :: after →
  (i <= length before)%nat → (length before - i < fuel)%nat →
  scan zombies fuel i c
  = set_processes (before ++ z2 :: after)
      (emit (EPrint (MsgChildStopped z1)) c).
Proof.
  intros Hz Hclean.
  assert (Hnot : z1 ∉ before).
  { intros Hin. rewrite (Hclean z1) in Hz; [discriminate|].
    apply elem_of_app. now left. }
  induction fuel as [|fuel IH]; intros i c Hp Hi Hfuel; [lia|].
  simpl. rewrite Hp.
  destruct (decide (i = length before)) as [->|Hlt].
  - rewrite list_lookup_middle by reflexivity. rewrite Hz.
    rewrite PyFacts.remove_middle by exact Hnot.
    apply scan_clean_from. intros j w Hj.
    cbn [server_processes set_processes].
    rewrite lookup_app_r by lia.
    destruct (j - length before)%nat as [|k] eqn:Hk; [lia|].
    cbn. intros Hw. apply Hclean, elem_of_app. right.
    eapply list_elem_of_lookup_2. exact Hw.
  - assert (Hlt' : (i < length before)%nat) by lia.
    rewrite lookup_app_l by exact Hlt'.
    destruct (lookup_lt_is_Some_2 before i Hlt') as [w Hw]. rewrite Hw.
    rewrite (Hclean w)
      by (apply elem_of_app; left; eapply list_elem_of_lookup_2; exact Hw).
    apply IH; [exact Hp | lia | lia].
Qed.

End ScanFacts.

(** X9: whatever the [ps] view shows, the SIGCHLD handler keeps every
    stored pid that is not shown as a zombie, in the same order.  It
    prints one notice per pid it removes, each of them shown as a
    zombie, then calls the non-blocking [waitpid] exactly once, and it
    leaves SIGCHLD ignored. *)
Theorem handler_keeps_live_replicants (zombies : list Z) (c : controller) :
  let c' := abnormal_child_exit_handler zombies c in
  live zombies (server_processes c') = live zombies (server_processes c)
  ∧ sigchld c' = SigIgnore
  ∧ ∃ stopped,
      new_events c c'
      = map (λ pid, EPrint (MsgChildStopped pid)) stopped ++ [EWaitpidNoHang]
      ∧ Forall (λ pid, Py.mem pid zombies = true) stopped
      ∧ (length (server_processes c') + length stopped
         = length (server_processes c))%nat.
Proof.
  cbv zeta. unfold abnormal_child_exit_handler.
  destruct (ScanFacts.scan_effect zombies
              (length (server_processes (set_sigchld SigIgnore c))) 0
              (set_sigchld SigIgnore c))
    as (Hlive & Hsig & stopped & Hlog & Hall & Hlen).
  set (c2 := scan _ _ _ _) in *.
  split; [exact Hlive|]. split; [exact Hsig|].
  exists stopped. split; [|split; [exact Hall | exact Hlen]].
  unfold new_events.
  change (log (emit EWaitpidNoHang c2)) with (log c2 ++ [EWaitpidNoHang]).
  rewrite Hlog. change (log (set_sigchld SigIgnore c)) with (log c).
  rewrite <- app_assoc. apply drop_app_length.
Qed.

(** X10: the loop of lines 175-188 walks the list it shrinks.  When the
    pid [z1] is removed, the pid [z2] stored right after it moves into
    the slot just visited and is never inspected: it stays in the list,
    also when [ps] shows it as a zombie too. *)
Theorem zombie_after_a_zombie_is_kept (zombies before after : list Z)
    (z1 z2 : Z) (c : controller) :
  server_processes c = before ++ z1 :: z2 :: after →
  Py.mem z1 zombies = true →
  Py.mem z2 zombies = true →
  (∀ w, w ∈ before ++ after → Py.mem w zombies = false) →
  server_processes (abnormal_child_exit_handler zombies c)
  = before ++ z2 :: after.
Proof.
  intros Hp Hz1 _ Hclean. unfold abnormal_child_exit_handler.
  rewrite (ScanFacts.scan_skips_next zombies z1 z2 before after Hz1 Hclean
             _ 0 (set_sigchld SigIgnore c)); [reflexivity | exact Hp | lia |].
  change (server_processes (set_sigchld SigIgnore c))
    with (server_processes c).
  rewrite Hp, length_app. cbn [length]. lia.
Qed.

Lemma zombie_after_a_zombie_is_kept_witness :
  let c := run (idle_ticks 1 ++ flat_map spawn_ticks [11; 12; 13]
                ++ idle_ticks 1) (start 3 3 "A") in
  server_processes (abnormal_child_exit_handler [11; 12] c)
  = [] ++ 12 :: [13].
Proof.
  apply (zombie_after_a_zombie_is_kept [11; 12] [] [13] 11 12).
  - reflexivity.
  - reflexivity.
  - reflexivity.
  - intros w Hw. apply list_elem_of_singleton in Hw. subst w. reflexivity.
Defined.

(** ** The SIGTERM handler and what runs inside it *)

Module TermFacts.

(** The loop of lines 244-247 when no SIGCHLD handler can run inside it
    and every [os.kill] returns. *)
Lemma kill_live_undisturbed fuel : ∀ schedule i c,
  Forall (λ x, x = Quiet ∨ (sigchld c ≠ SigHandler ∧ x ≠ KillRaises))
    schedule →
  (length (server_processes c) <= i + fuel)%nat →
  kill_live schedule fuel i c
  = (emit_all (map (λ p, EKill p SIGKILL) (drop i (server_processes c))) c,
     true).
Proof.
  induction fuel as [|fuel IH]; intros schedule i c Hall Hlen;
    cbn [kill_live].
  - rewrite drop_ge by lia. now rewrite ServerFacts.emit_all_none.
  - destruct (server_processes c !! i) as [pid|] eqn:Hi.
    2:{ apply lookup_ge_None in Hi. rewrite drop_ge by lia.
        now rewrite ServerFacts.emit_all_none. }
    assert (Hnext : ∀ later,
              Forall (λ x, x = Quiet
                           ∨ (sigchld c ≠ SigHandler ∧ x ≠ KillRaises))
                later →
              kill_live later fuel (S i) (emit (EKill pid SIGKILL) c)
              = (emit_all (map (λ p, EKill p SIGKILL)
                             (drop i (server_processes c))) c, true)).
    { intros later Hlater. rewrite IH; [|exact Hlater|cbn; lia].
      rewrite (drop_S _ _ _ Hi). f_equal.
      destruct c. unfold emit_all, emit. cbn. now rewrite <- app_assoc. }
    destruct schedule as [|x later]; [now apply Hnext|].
    apply Forall_cons in Hall as [Hx Hlater].
    destruct x as [|zombies waitpid|]; cbv zeta.
    + now apply Hnext.
    + destruct Hx as [Hx|[Hsig _]]; [discriminate|].
      change (sigchld (emit (EKill pid SIGKILL) c)) with (sigchld c).
      destruct (sigchld c); [now apply Hnext | now destruct Hsig
                            | now apply Hnext].
    + destruct Hx as [Hx|[_ Hx]]; [discriminate | now destruct Hx].
Qed.

Lemma kill_live_chld zombies later fuel i c pid :
  server_processes c !! i = Some pid →
  sigchld c = SigHandler →
  kill_live (Chld zombies Returns :: later) (S fuel) i c
  = kill_live later fuel (S i)
      (abnormal_child_exit_handler zombies (emit (EKill pid SIGKILL) c)).
Proof.
  intros Hi Hs. cbn [kill_live]. rewrite Hi. cbv zeta.
  change (sigchld (emit (EKill pid SIGKILL) c)) with (sigchld c).
  now rewrite Hs.
Qed.

Lemma deliver_term_runs schedule c :
  running c → handlers_registered c = true →
  deliver_term schedule c = terminate_replicants schedule c.
Proof.
  intros Hrun Hreg. unfold deliver_term. rewrite Hreg.
  destruct (at_ c) eqn:E; try reflexivity. now destruct (Hrun why).
Qed.

End TermFacts.

(** X23: SIGTERM when nothing disturbs its handler.  If every [os.kill]
    of the loop returns and no SIGCHLD handler runs between two of them
    (none can once SIGCHLD is ignored), the handler sends SIGKILL to
    every stored pid, in the order of the list, and then to the server
    itself; the server has exited and does nothing more. *)
Theorem undisturbed_terminate_kills_every_replicant
    (schedule : list after_kill) (c : controller) :
  running c →
  handlers_registered c = true →
  Forall (λ x, x = Quiet ∨ (sigchld c ≠ SigHandler ∧ x ≠ KillRaises))
    schedule →
  let c' := act c (Terminate schedule) in
  new_events c c'
  = map (λ p, EKill p SIGKILL) (server_processes c) ++ [EKillSelf SIGKILL]
  ∧ server_processes c' = server_processes c
  ∧ at_ c' = Exited (BySignal SIGKILL)
  ∧ ∀ acts, run acts c' = c'.
Proof.
  intros Hrun Hreg Hall. cbv zeta. cbn [act].
  rewrite (TermFacts.deliver_term_runs schedule c Hrun Hreg).
  unfold terminate_replicants.
  rewrite (TermFacts.kill_live_undisturbed _ schedule 0 c Hall) by lia.
  rewrite drop_0.
  split; [|split; [reflexivity|split; [reflexivity|]]].
  - unfold new_events.
    change (log (goto (Exited (BySignal SIGKILL))
                   (emit (EKillSelf SIGKILL)
                      (emit_all (map (λ p, EKill p SIGKILL)
                                   (server_processes c)) c))))
      with ((log c ++ map (λ p, EKill p SIGKILL) (server_processes c))
            ++ [EKillSelf SIGKILL]).
    rewrite <- app_assoc. apply drop_app_length.
  - intros acts.
    now apply ServerFacts.exited_run with (why := BySignal SIGKILL).
Qed.

Lemma undisturbed_terminate_kills_every_replicant_witness :
  let c := run (idle_ticks 1 ++ flat_map spawn_ticks [11; 12]
                ++ idle_ticks 1) (start 2 3 "A") in
  let c' := act c (Terminate [Quiet; Quiet]) in
  new_events c c'
  = map (λ p, EKill p SIGKILL) (server_processes c) ++ [EKillSelf SIGKILL]
  ∧ server_processes c' = server_processes c
  ∧ at_ c' = Exited (BySignal SIGKILL)
  ∧ ∀ acts, run acts c' = c'.
Proof.
  apply (undisturbed_terminate_kills_every_replicant [Quiet; Quiet]
           (run (idle_ticks 1 ++ flat_map spawn_ticks [11; 12]
                 ++ idle_ticks 1) (start 2 3 "A"))).
  - intros why. vm_compute. discriminate.
  - reflexivity.
  - repeat constructor.
Defined.

(** X24: SIGTERM whose first [os.kill] is followed by the SIGCHLD
    handler.  The handler finds the killed replicant [p1] as a zombie
    and removes it from the head of the list; the loop of line 244 goes
    on at index 1 of the shortened list, so the replicant [p2] that was
    stored second is never signalled.  The rest are killed in order,
    then the server kills itself, and [p2] is still in its list. *)
Theorem sigchld_inside_terminate_skips_next (zombies rest : list Z)
    (p1 p2 : Z) (c : controller) :
  running c →
  handlers_registered c = true →
  sigchld c = SigHandler →
  server_processes c = p1 :: p2 :: rest →
  Py.mem p1 zombies = true →
  (∀ w, w ∈ rest → Py.mem w zombies = false) →
  let c' := act c (Terminate [Chld zombies Returns]) in
  new_events c c'
  = [EKill p1 SIGKILL; EPrint (MsgChildStopped p1); EWaitpidNoHang]
    ++ map (λ p, EKill p SIGKILL) rest ++ [EKillSelf SIGKILL]
  ∧ server_processes c' = p2 :: rest
  ∧ at_ c' = Exited (BySignal SIGKILL).
Proof.
  intros Hrun Hreg Hsig Hp Hz Hclean. cbv zeta. cbn [act].
  rewrite (TermFacts.deliver_term_runs _ c Hrun Hreg).
  unfold terminate_replicants. rewrite Hp. cbn [length].
  rewrite (TermFacts.kill_live_chld zombies [] (S (length rest)) 0 c p1)
    by (try exact Hsig; now rewrite Hp).
  set (c1 := emit (EKill p1 SIGKILL) c).
  assert (Hh : abnormal_child_exit_handler zombies c1
               = emit EWaitpidNoHang
                   (set_processes (p2 :: rest)
                      (emit (EPrint (MsgChildStopped p1))
                         (set_sigchld SigIgnore c1)))).
  { unfold abnormal_child_exit_handler. cbv zeta. f_equal.
    apply (ScanFacts.scan_skips_next zombies p1 p2 [] rest Hz Hclean).
    - exact Hp.
    - cbn. lia.
    - change (server_processes (set_sigchld SigIgnore c1))
        with (server_processes c).
      rewrite Hp. cbn. lia. }
  rewrite Hh.
  rewrite ServerFacts.kill_live_quiet by (cbn; lia).
  cbn [server_processes emit set_processes drop].
  split; [|split; reflexivity].
  unfold new_events. subst c1.
  destruct c as [nm mx smin smax cnt ps sg hr l lg].
  cbn. rewrite <- !app_assoc. cbn [app].
  apply (drop_app_length lg).
Qed.

Lemma sigchld_inside_terminate_skips_next_witness :
  let c := run (idle_ticks 1 ++ flat_map spawn_ticks [11; 12; 13]
                ++ idle_ticks 1) (start 3 3 "A") in
  let c' := act c (Terminate [Chld [11] Returns]) in
  new_events c c'
  = [EKill 11 SIGKILL; EPrint (MsgChildStopped 11); EWaitpidNoHang]
    ++ map (λ p, EKill p SIGKILL) [13] ++ [EKillSelf SIGKILL]
  ∧ server_processes c' = 12 :: [13]
  ∧ at_ c' = Exited (BySignal SIGKILL).
Proof.
  apply (sigchld_inside_terminate_skips_next [11] [13] 11 12
           (run (idle_ticks 1 ++ flat_map spawn_ticks [11; 12; 13]
                 ++ idle_ticks 1) (start 3 3 "A"))).
  - intros why. vm_compute. discriminate.
  - reflexivity.
  - reflexivity.
  - reflexivity.
  - reflexivity.
  - intros w Hw. apply list_elem_of_singleton in Hw. subst w. reflexivity.
Defined.

(** * Further properties of the Manager *)

(** ** The fields of a typed line *)

Module FieldFacts.

Lemma split_space_not_nil (s : string) : Py.split_space s ≠ [].
Proof.
  destruct s as [|ch rest]; simpl; [discriminate|].
  destruct (Ascii.eqb ch " "); [discriminate|].
  destruct (Py.split_space rest); discriminate.
Qed.

(** A line with a single field is that field. *)
Lemma split_space_one (s : string) : ∀ n, Py.split_space s = [n] → s = n.
Proof.
  induction s as [|ch rest IH]; simpl; intros n H.
  - now injection H.
  - destruct (Ascii.eqb ch " ").
    + injection H as _ H. now destruct (split_space_not_nil rest).
    + destruct (Py.split_space rest) as [|f fs] eqn:E.
      * now destruct (split_space_not_nil rest).
      * injection H as <- ->. f_equal. now apply IH.
Qed.

(** A line with two fields is the two fields around one space. *)
Lemma split_space_two (s : string) : ∀ w n,
  Py.split_space s = [w; n] → s = w +:+ " " +:+ n.
Proof.
  induction s as [|ch rest IH]; simpl; intros w n H.
  - discriminate.
  - destruct (Ascii.eqb_spec ch " ") as [->|_].
    + injection H as <- H. apply split_space_one in H. now subst.
    + destruct (Py.split_space rest) as [|f fs] eqn:E; [discriminate|].
      injection H as <- ->.
      change (String ch rest = String ch (f +:+ " " +:+ n)).
      f_equal. now apply IH.
Qed.

Lemma contains_append_r (sub s t : string) :
  Py.contains sub t = true → Py.contains sub (s +:+ t) = true.
Proof.
  intros H. induction s as [|ch s IH].
  - exact H.
  - change (Py.contains sub (String ch (s +:+ t)) = true).
    cbn [Py.contains]. rewrite IH. apply orb_true_r.
Qed.

(** What the second field of a two-field line contains, the line
    contains. *)
Lemma contains_second_field (sub s w n : string) :
  Py.split_space s = [w; n] →
  Py.contains sub n = true → Py.contains sub s = true.
Proof.
  intros Hs Hn. rewrite (split_space_two s w n Hs).
  apply contains_append_r. now apply (contains_append_r sub " " n).
Qed.

(** No field holds a space. *)
Lemma split_space_no_space (s : string) :
  Forall (λ f, Py.no_space f = true) (Py.split_space s).
Proof.
  induction s as [|ch rest IH]; simpl.
  - repeat constructor.
  - destruct (Ascii.eqb ch " ") eqn:E.
    + constructor; [reflexivity | exact IH].
    + destruct (Py.split_space rest) as [|f fs].
      * repeat constructor. simpl. now rewrite E.
      * inversion IH; subst. constructor; [|assumption].
        simpl. rewrite E. assumption.
Qed.

Lemma no_space_single (n : string) :
  Py.no_space n = true → Py.split_space n = [n].
Proof.
  induction n as [|ch n IH]; simpl; intros H; [reflexivity|].
  apply andb_true_iff in H as [Hch Hn].
  apply negb_true_iff in Hch. rewrite Hch, (IH Hn). reflexivity.
Qed.

Lemma split_space_word (w n : string) :
  Py.no_space w = true → Py.no_space n = true →
  Py.split_space (w +:+ " " +:+ n) = [w; n].
Proof.
  intros Hw Hn. induction w as [|ch w IH].
  - change (Py.split_space (String " " n) = [""; n]).
    simpl. now rewrite (no_space_single n Hn).
  - simpl in Hw. apply andb_true_iff in Hw as [Hch Hw].
    apply negb_true_iff in Hch.
    change (Py.split_space (String ch (w +:+ " " +:+ n)) = [String ch w; n]).
    cbn [Py.split_space]. rewrite Hch, (IH Hw). reflexivity.
Qed.

End FieldFacts.

(** ** What a pass does to the directory *)

Module DirectoryFacts.

Lemma relay_prompt_pid manager_pid v s k
    (server_pids' : gmap string handle) out :
  relay manager_pid v s k = Prompt server_pids' out →
  ∃ p, v = Pid p ∧ p ≠ manager_pid ∧ k [EKill p s] = Prompt server_pids' out.
Proof.
  unfold relay. destruct v as [p|]; [|discriminate].
  destruct (Z.eqb_spec p manager_pid); [discriminate|]. eauto.
Qed.

(** The createServer branch keeps the directory or adds one fresh,
    non-empty name to it. *)
Lemma createServer_directory fk (d : gmap string handle) minimum maximum
    name d' out :
  createServer fk d minimum maximum name = Prompt d' out →
  d' = d ∨ (d !! name = None ∧ name ≠ "" ∧ ∃ v, d' = <[name := v]> d).
Proof.
  unfold createServer.
  destruct (Py.is_empty name) eqn:Hempty; [intros [= <- _]; now left|].
  destruct (d !! name) eqn:Hname; [intros [= <- _]; now left|].
  destruct (maximum >=? minimum); [|intros [= <- _]; now left].
  destruct (create_server fk minimum maximum name) as [[v|c] evs];
    [|discriminate].
  intros [= <- _]. right. split; [reflexivity|]. split; [|eauto].
  now apply PyFacts.is_empty_false.
Qed.

Lemma createServer_branch_directory py_int fk (d : gmap string handle)
    command d' out :
  createServer_branch py_int fk d command = Prompt d' out →
  d' = d
  ∨ ∃ w a b name v, Py.split_space command = [w; a; b; name]
                   ∧ d !! name = None ∧ name ≠ "" ∧ d' = <[name := v]> d.
Proof.
  unfold createServer_branch.
  destruct (Py.split_space command) as [|w0 [|w1 [|w2 [|w3 [|w4 ws]]]]];
    try (intros [= <- _]; now left).
  destruct (py_int w1); [|discriminate].
  destruct (py_int w2); [|discriminate].
  intros H. apply createServer_directory in H as [->|(Hnew & Hname & v & ->)].
  - now left.
  - right. exists w0, w1, w2, w3, v. auto.
Qed.

(** An entry survives a pass, unless the line is a two-field abortServer
    line that names it and its value is a pid other than the Manager's. *)
Lemma command_pass_entry py_int manager_pid fk (d : gmap string handle)
    command d' out n v :
  d !! n = Some v →
  command_pass py_int manager_pid fk d command = Prompt d' out →
  d' !! n = Some v
  ∨ (Py.contains "createServer" command = false
     ∧ Py.contains "abortServer" command = true
     ∧ (∃ w, Py.split_space command = [w; n])
     ∧ ∃ p, v = Pid p ∧ p ≠ manager_pid).
Proof.
  intros Hn. unfold command_pass.
  destruct (Py.contains "createServer" command).
  { intros H. left.
    apply createServer_branch_directory in H
      as [->|(w & a & b & name & v' & _ & Hnew & _ & ->)]; [exact Hn|].
    rewrite lookup_insert_ne; [exact Hn|]. intros ->. congruence. }
  destruct (Py.contains "abortServer" command).
  { unfold abortServer_branch.
    destruct (Py.split_space command) as [|w0 [|w1 [|w2 ws]]];
      try (intros [= <- _]; now left).
    destruct (d !! w1) as [v1|] eqn:Hw1; [|intros [= <- _]; now left].
    intros H. apply relay_prompt_pid in H as (p & -> & Hp & [= <- _]).
    destruct (decide (w1 = n)) as [->|Hne].
    - right. repeat split; eauto. exists p. split; [congruence | exact Hp].
    - left. now rewrite lookup_delete_ne. }
  assert (Hproc : ∀ s, process_branch manager_pid s d command = Prompt d' out
                       → d' = d).
  { intros s. unfold process_branch.
    destruct (Py.split_space command) as [|w0 [|w1 [|w2 ws]]];
      try congruence.
    destruct (d !! w1) as [v1|]; [|congruence].
    intros H. now apply relay_prompt_pid in H as (p & _ & _ & [= <- _]). }
  destruct (Py.contains "createProcess" command);
    [intros H; apply Hproc in H as ->; now left|].
  destruct (Py.contains "abortProcess" command);
    [intros H; apply Hproc in H as ->; now left|].
  destruct (Py.contains "displayStatus" command); intros [= <- _]; now left.
Qed.

(** Two kinds of entries no pass removes: one whose value is not a pid
    other than the Manager's, and one whose name holds "createServer". *)
Lemma pass_keeps_entry py_int manager_pid fk (d : gmap string handle)
    command d' out n v :
  (∀ p, v = Pid p → p = manager_pid) ∨ Py.contains "createServer" n = true →
  d !! n = Some v →
  command_pass py_int manager_pid fk d command = Prompt d' out →
  d' !! n = Some v.
Proof.
  intros Hprot Hn Hpass.
  destruct (command_pass_entry py_int manager_pid fk d command d' out n v
              Hn Hpass) as [H|(Hc & _ & [w Hw] & p & Hv & Hp)];
    [exact H|].
  exfalso. destruct Hprot as [Hprot|Hprot].
  - now apply Hp, Hprot.
  - rewrite (FieldFacts.contains_second_field _ _ _ _ Hw Hprot) in Hc.
    discriminate.
Qed.

Lemma session_keeps_entry py_int manager_pid n v typed :
  ∀ d final : gmap string handle,
  (∀ p, v = Pid p → p = manager_pid) ∨ Py.contains "createServer" n = true →
  d !! n = Some v →
  session py_int manager_pid d typed = Some final →
  final !! n = Some v.
Proof.
  induction typed as [|[command fk] later IH]; simpl; intros d final Hprot Hn.
  - now intros [= <-].
  - destruct (command_pass py_int manager_pid fk d command) eqn:Hpass;
      try discriminate.
    apply IH; [exact Hprot|]. eapply pass_keeps_entry; eassumption.
Qed.

(** A pass that does not go through the createServer branch keeps the
    directory or deletes one key. *)
Lemma other_pass_directory py_int manager_pid fk (d : gmap string handle)
    command d' out :
  Py.contains "createServer" command = false →
  command_pass py_int manager_pid fk d command = Prompt d' out →
  d' = d
  ∨ (Py.contains "abortServer" command = true
     ∧ ∃ w name, Py.split_space command = [w; name] ∧ d' = delete name d).
Proof.
  intros Hc. unfold command_pass. rewrite Hc.
  destruct (Py.contains "abortServer" command).
  { unfold abortServer_branch.
    destruct (Py.split_space command) as [|w0 [|w1 [|w2 ws]]];
      try (intros [= <- _]; now left).
    destruct (d !! w1) as [v1|]; [|intros [= <- _]; now left].
    intros H. apply relay_prompt_pid in H as (p & _ & _ & [= <- _]).
    right. eauto. }
  assert (Hproc : ∀ s, process_branch manager_pid s d command = Prompt d' out
                       → d' = d).
  { intros s. unfold process_branch.
    destruct (Py.split_space command) as [|w0 [|w1 [|w2 ws]]];
      try congruence.
    destruct (d !! w1) as [v1|]; [|congruence].
    intros H. now apply relay_prompt_pid in H as (p & _ & _ & [= <- _]). }
  destruct (Py.contains "createProcess" command);
    [intros H; left; now apply (Hproc SIGUSR1)|].
  destruct (Py.contains "abortProcess" command);
    [intros H; left; now apply (Hproc SIGUSR2)|].
  destruct (Py.contains "displayStatus" command); intros [= <- _]; now left.
Qed.

(** Every key of the directory is free of spaces. *)
Lemma command_pass_names py_int manager_pid fk (d : gmap string handle)
    command d' out :
  (∀ n v, d !! n = Some v → Py.no_space n = true) →
  command_pass py_int manager_pid fk d command = Prompt d' out →
  ∀ n v, d' !! n = Some v → Py.no_space n = true.
Proof.
  intros Hd Hpass n v Hn.
  destruct (Py.contains "createServer" command) eqn:Hc.
  - unfold command_pass in Hpass. rewrite Hc in Hpass.
    apply createServer_branch_directory in Hpass
      as [->|(w & a & b & name & v' & Hsplit & _ & _ & ->)];
      [exact (Hd n v Hn)|].
    apply lookup_insert_Some in Hn as [[<- _]|[_ Hn]]; [|exact (Hd n v Hn)].
    pose proof (FieldFacts.split_space_no_space command) as Hall.
    rewrite Hsplit in Hall.
    apply Forall_cons in Hall as [_ Hall].
    apply Forall_cons in Hall as [_ Hall].
    apply Forall_cons in Hall as [_ Hall].
    now apply Forall_cons in Hall as [Hall _].
  - apply (other_pass_directory py_int manager_pid fk d command d' out Hc)
      in Hpass as [->|(_ & w & name & _ & ->)]; [exact (Hd n v Hn)|].
    apply lookup_delete_Some in Hn as [_ Hn]. exact (Hd n v Hn).
Qed.

Lemma session_names py_int manager_pid typed :
  ∀ d final : gmap string handle,
  (∀ n v, d !! n = Some v → Py.no_space n = true) →
  session py_int manager_pid d typed = Some final →
  ∀ n v, final !! n = Some v → Py.no_space n = true.
Proof.
  induction typed as [|[command fk] later IH]; simpl; intros d final Hd.
  - now intros [= <-].
  - destruct (command_pass py_int manager_pid fk d command) eqn:Hpass;
      try discriminate.
    apply IH. eapply command_pass_names; eassumption.
Qed.

Lemma initial_names manager_pid n v :
  initial_pids manager_pid !! n = Some v → Py.no_space n = true.
Proof.
  unfold initial_pids. intros H.
  apply lookup_singleton_Some in H as [<- _]. reflexivity.
Qed.

End DirectoryFacts.

(** ** The Manager's own entry *)

(** X11: whatever is typed, as long as the Manager comes back to the
    prompt its own entry of line 369 is still in [server_pids], with its
    pid: no createServer line overwrites it and no abortServer line
    deletes it. *)
Theorem manager_entry_is_permanent py_int manager_pid typed
    (final : gmap string handle) :
  session py_int manager_pid (initial_pids manager_pid) typed = Some final →
  final !! "Manager" = Some (Pid manager_pid).
Proof.
  apply DirectoryFacts.session_keeps_entry.
  - left. now intros p [= ->].
  - apply ManagerFacts.initial_has_manager.
Qed.

Lemma manager_entry_is_permanent_witness :
  (<["B" := Pid 4243]> (initial_pids 100) : gmap string handle) !! "Manager"
  = Some (Pid 100).
Proof.
  apply (manager_entry_is_permanent Py.dec_int 100
           [("createServer 1 3 A", ForkReturns 4242);
            ("createServer 0 2 Manager", ForkReturns 7);
            ("abortServer A", ForkOSError);
            ("createServer 0 2 B", ForkReturns 4243)]).
  vm_compute. reflexivity.
Defined.

(** X12: the Manager's entry is treated like a server's.  In every
    directory a session reaches, a two-field line that names "Manager"
    and asks for abortServer, createProcess or abortProcess makes the
    Manager signal its own pid; it has no handler for these signals, so
    the pass ends the Manager. *)
Theorem signalling_own_entry_ends_manager py_int manager_pid typed
    (final : gmap string handle) fk (command w : string) :
  session py_int manager_pid (initial_pids manager_pid) typed = Some final →
  Py.split_space command = [w; "Manager"] →
  Py.contains "createServer" command = false →
  Py.contains "abortServer" command || Py.contains "createProcess" command
    || Py.contains "abortProcess" command = true →
  ∃ s, command_pass py_int manager_pid fk final command
       = Ended s [EKill manager_pid s]
       ∧ s = (if Py.contains "abortServer" command then SIGTERM
              else if Py.contains "createProcess" command then SIGUSR1
              else SIGUSR2).
Proof.
  intros Hreach Hsplit Hc Hword.
  pose proof (DirectoryFacts.session_keeps_entry py_int manager_pid "Manager"
                (Pid manager_pid) typed (initial_pids manager_pid) final
                (or_introl (λ p (H : Pid manager_pid = Pid p),
                              eq_sym (f_equal (λ v, match v with
                                                    | Pid q => q
                                                    | PyNone => manager_pid
                                                    end) H)))
                (ManagerFacts.initial_has_manager manager_pid) Hreach) as Hm.
  unfold command_pass. rewrite Hc.
  unfold abortServer_branch, process_branch, relay. rewrite Hsplit, Hm.
  rewrite Z.eqb_refl.
  destruct (Py.contains "abortServer" command); [eauto|].
  destruct (Py.contains "createProcess" command); [eauto|].
  destruct (Py.contains "abortProcess" command); [eauto|discriminate].
Qed.

Lemma signalling_own_entry_ends_manager_witness :
  ∃ s, command_pass Py.dec_int 100 ForkOSError
         (<["A" := Pid 4242]> (initial_pids 100)) "abortProcess Manager"
       = Ended s [EKill 100 s]
       ∧ s = (if Py.contains "abortServer" "abortProcess Manager" then SIGTERM
              else if Py.contains "createProcess" "abortProcess Manager"
                   then SIGUSR1
              else SIGUSR2).
Proof.
  apply (signalling_own_entry_ends_manager Py.dec_int 100
           [("createServer 1 3 A", ForkReturns 4242)] _ ForkOSError
           "abortProcess Manager" "abortProcess").
  - vm_compute. reflexivity.
  - reflexivity.
  - reflexivity.
  - reflexivity.
Defined.

(** ** What a pass sends and forks *)

(** X13: the Manager only signals pids it has stored.  An [os.kill]
    performed by a pass goes to the pid stored under the second field
    of a two-field line, and the signal is SIGTERM, SIGUSR1 or SIGUSR2:
    the Manager itself never sends SIGKILL. *)
Theorem signals_go_to_stored_pids py_int manager_pid fk
    (server_pids : gmap string handle) (command : string) (p : Z)
    (s : signum) :
  EKill p s ∈ output (command_pass py_int manager_pid fk server_pids command) →
  (∃ w name, Py.split_space command = [w; name]
             ∧ server_pids !! name = Some (Pid p))
  ∧ (s = SIGTERM ∨ s = SIGUSR1 ∨ s = SIGUSR2).
Proof.
  assert (Hrelay : ∀ v s0 k,
            (∀ sent, ∃ d' tail,
                k sent = Prompt d' (sent ++ tail) ∧ EKill p s ∉ tail) →
            EKill p s ∈ output (relay manager_pid v s0 k) →
            v = Pid p ∧ s = s0).
  { intros v s0 k Hk. unfold relay. destruct v as [p0|]; simpl.
    - destruct (p0 =? manager_pid); simpl.
      + intros H. apply list_elem_of_singleton in H as [= -> ->]. auto.
      + destruct (Hk [EKill p0 s0]) as (d' & tail & -> & Htail). simpl.
        intros H. apply elem_of_cons in H as [[= -> ->]|H]; [auto|].
        now destruct Htail.
    - intros H. now apply elem_of_nil in H. }
  assert (Hproc : ∀ s0,
            EKill p s ∈ output (process_branch manager_pid s0 server_pids
                                  command) →
            (∃ w name, Py.split_space command = [w; name]
                       ∧ server_pids !! name = Some (Pid p)) ∧ s = s0).
  { intros s0. unfold process_branch.
    destruct (Py.split_space command) as [|w0 [|w1 [|w2 ws]]]; simpl;
      try (intros H; apply list_elem_of_singleton in H; discriminate).
    destruct (server_pids !! w1) as [v1|] eqn:Hw1; simpl;
      [|intros H; apply list_elem_of_singleton in H; discriminate].
    intros H. apply Hrelay in H as [-> ->]; [eauto 6|].
    intros sent. exists server_pids, []. rewrite app_nil_r.
    split; [reflexivity | apply not_elem_of_nil]. }
  unfold command_pass.
  destruct (Py.contains "createServer" command).
  { unfold createServer_branch.
    destruct (Py.split_space command) as [|w0 [|w1 [|w2 [|w3 [|w4 ws]]]]];
      simpl; try (intros H; apply list_elem_of_singleton in H; discriminate).
    destruct (py_int w1) as [z|];
      [|simpl; intros H; now apply elem_of_nil in H].
    destruct (py_int w2) as [z0|];
      [|simpl; intros H; now apply elem_of_nil in H].
    unfold createServer, create_server. cbv zeta.
    intros H. exfalso. revert H.
    destruct (Py.is_empty w3);
      [simpl; intros H; apply list_elem_of_singleton in H; discriminate|].
    destruct (server_pids !! w3);
      [simpl; intros H; apply list_elem_of_singleton in H; discriminate|].
    destruct ((z <? 0) || (z0 >? 10)); destruct (z0 >=? z);
      destruct fk as [pid|]; try destruct (pid =? 0);
      try destruct (pid >? 0); simpl; intros H;
      repeat (apply elem_of_cons in H as [H|H]; [discriminate H|]);
      now apply elem_of_nil in H. }
  destruct (Py.contains "abortServer" command).
  { unfold abortServer_branch.
    destruct (Py.split_space command) as [|w0 [|w1 [|w2 ws]]]; simpl;
      try (intros H; apply list_elem_of_singleton in H; discriminate).
    destruct (server_pids !! w1) as [v1|] eqn:Hw1; simpl;
      [|intros H; apply list_elem_of_singleton in H; discriminate].
    intros H. apply Hrelay in H as [-> ->]; [eauto 6|].
    intros sent. exists (delete w1 server_pids), [EPrint MsgServerTerminated].
    split; [reflexivity|].
    intros Hin. apply list_elem_of_singleton in Hin. discriminate. }
  destruct (Py.contains "createProcess" command).
  { intros H. apply Hproc in H as [H ->]. auto. }
  destruct (Py.contains "abortProcess" command).
  { intros H. apply Hproc in H as [H ->]. auto. }
  destruct (Py.contains "displayStatus" command); simpl;
    intros H; apply list_elem_of_singleton in H; discriminate.
Qed.

Lemma signals_go_to_stored_pids_witness :
  (∃ w name, Py.split_space "abortServer A" = [w; name]
             ∧ (<["A" := Pid 4242]> (initial_pids 100) : gmap string handle)
                 !! name = Some (Pid 4242))
  ∧ (SIGTERM = SIGTERM ∨ SIGTERM = SIGUSR1 ∨ SIGTERM = SIGUSR2).
Proof.
  apply (signals_go_to_stored_pids Py.dec_int 100 ForkOSError
           (<["A" := Pid 4242]> (initial_pids 100)) "abortServer A"
           4242 SIGTERM).
  vm_compute. constructor.
Defined.

(** X14: only a line that contains "createServer" can fork.  A pass on
    any other line asks for no fork, never becomes a server, and does
    not depend on what a fork would answer; if the line does not
    contain "abortServer" either, the directory is the same after the
    pass. *)
Theorem only_createServer_lines_fork py_int manager_pid fk
    (server_pids : gmap string handle) (command : string) :
  Py.contains "createServer" command = false →
  forks (output (command_pass py_int manager_pid fk server_pids command))
  = false
  ∧ (∀ c out, command_pass py_int manager_pid fk server_pids command
              ≠ Serving c out)
  ∧ (∀ fk', command_pass py_int manager_pid fk' server_pids command
            = command_pass py_int manager_pid fk server_pids command)
  ∧ (Py.contains "abortServer" command = false →
     ∀ server_pids' out,
       command_pass py_int manager_pid fk server_pids command
       = Prompt server_pids' out →
       server_pids' = server_pids).
Proof.
  intros Hc. split; [|split; [|split]].
  - unfold command_pass. rewrite Hc.
    unfold abortServer_branch, process_branch, relay.
    repeat match goal with
           | |- context [if ?b then _ else _] => destruct b
           | |- context [match ?x with _ => _ end] => destruct x
           end; reflexivity.
  - intros c out. unfold command_pass. rewrite Hc.
    unfold abortServer_branch, process_branch, relay.
    repeat match goal with
           | |- context [if ?b then _ else _] => destruct b
           | |- context [match ?x with _ => _ end] => destruct x
           end; discriminate.
  - intros fk'. unfold command_pass. now rewrite Hc.
  - intros Ha d' out Hpass.
    apply (DirectoryFacts.other_pass_directory _ _ _ _ _ _ _ Hc) in Hpass
      as [->|[Ha' _]]; [reflexivity | congruence].
Qed.

Lemma only_createServer_lines_fork_witness :
  forks (output (command_pass Py.dec_int 100 (ForkReturns 7)
                   (<["A" := Pid 4242]> (initial_pids 100))
                   "createProcess A"))
  = false.
Proof.
  apply (only_createServer_lines_fork Py.dec_int 100 (ForkReturns 7)
           (<["A" := Pid 4242]> (initial_pids 100)) "createProcess A").
  reflexivity.
Defined.

(** ** Creating and aborting a server *)



(** ** Names that cannot be removed *)

(** X16: a server whose name contains "createServer" can be registered
    but never addressed.  Every two-field line that names it is taken
    for a createServer request with the wrong number of arguments, so
    no signal reaches the server, and its entry stays in every
    directory the session reaches. *)
Theorem name_with_createServer_is_never_removed py_int manager_pid
    (server_pids : gmap string handle) (name : string) (v : handle) :
  Py.contains "createServer" name = true →
  server_pids !! name = Some v →
  (∀ fk command w,
     Py.split_space command = [w; name] →
     command_pass py_int manager_pid fk server_pids command
     = Prompt server_pids [EPrint MsgIncorrectArguments])
  ∧ ∀ typed final,
      session py_int manager_pid server_pids typed = Some final →
      final !! name = Some v.
Proof.
  intros Hname Hv. split.
  - intros fk command w Hsplit. unfold command_pass.
    rewrite (FieldFacts.contains_second_field _ _ _ _ Hsplit Hname).
    unfold createServer_branch. now rewrite Hsplit.
  - intros typed final.
    apply DirectoryFacts.session_keeps_entry; [now right | exact Hv].
Qed.

Lemma name_with_createServer_is_never_removed_witness :
  (∀ fk command w,
     Py.split_space command = [w; "createServerX"] →
     command_pass Py.dec_int 100 fk
       (<["createServerX" := Pid 4242]> (initial_pids 100)) command
     = Prompt (<["createServerX" := Pid 4242]> (initial_pids 100))
         [EPrint MsgIncorrectArguments])
  ∧ ∀ typed final,
      session Py.dec_int 100
        (<["createServerX" := Pid 4242]> (initial_pids 100)) typed
      = Some final →
      final !! "createServerX" = Some (Pid 4242).
Proof.
  apply (name_with_createServer_is_never_removed Py.dec_int 100
           (<["createServerX" := Pid 4242]> (initial_pids 100))
           "createServerX" (Pid 4242)).
  - reflexivity.
  - vm_compute. reflexivity.
Defined.

(** X17: a name registered by a failed fork holds [None].  Asking to
    abort or scale it passes [None] to [os.kill], which raises
    TypeError before any signal is sent: the Manager dies of the
    uncaught exception.  Until then the entry stays: no line removes
    it. *)
Theorem name_of_failed_fork_is_stuck py_int manager_pid
    (server_pids : gmap string handle) (name : string) :
  server_pids !! name = Some PyNone →
  (∀ fk command w,
     Py.split_space command = [w; name] →
     Py.contains "createServer" command = false →
     Py.contains "abortServer" command || Py.contains "createProcess" command
       || Py.contains "abortProcess" command = true →
     command_pass py_int manager_pid fk server_pids command
     = Uncaught TypeError [])
  ∧ ∀ typed final,
      session py_int manager_pid server_pids typed = Some final →
      final !! name = Some PyNone.
Proof.
  intros Hv. split.
  - intros fk command w Hsplit Hc Hword. unfold command_pass. rewrite Hc.
    unfold abortServer_branch, process_branch, relay. rewrite Hsplit, Hv.
    destruct (Py.contains "abortServer" command); [reflexivity|].
    destruct (Py.contains "createProcess" command); [reflexivity|].
    destruct (Py.contains "abortProcess" command);
      [reflexivity | discriminate].
  - intros typed final.
    apply DirectoryFacts.session_keeps_entry; [|exact Hv].
    left. intros p. discriminate.
Qed.

Lemma name_of_failed_fork_is_stuck_witness :
  (∀ fk command w,
     Py.split_space command = [w; "A"] →
     Py.contains "createServer" command = false →
     Py.contains "abortServer" command || Py.contains "createProcess" command
       || Py.contains "abortProcess" command = true →
     command_pass Py.dec_int 100 fk (<["A" := PyNone]> (initial_pids 100))
       command
     = Uncaught TypeError [])
  ∧ ∀ typed final,
      session Py.dec_int 100 (<["A" := PyNone]> (initial_pids 100)) typed
      = Some final →
      final !! "A" = Some PyNone.
Proof.
  apply (name_of_failed_fork_is_stuck Py.dec_int 100
           (<["A" := PyNone]> (initial_pids 100)) "A").
  vm_compute. reflexivity.
Defined.

(** X18: every name in a directory the session reaches is one
    non-empty field: it holds no space, so a command word, a space and
    the name split into exactly those two fields. *)
Theorem registered_names_are_single_fields py_int manager_pid typed
    (final : gmap string handle) (name : string) :
  session py_int manager_pid (initial_pids manager_pid) typed = Some final →
  is_Some (final !! name) →
  name ≠ ""
  ∧ Py.split_space name = [name]
  ∧ ∀ w, Py.no_space w = true →
         Py.split_space (w +:+ " " +:+ name) = [w; name].
Proof.
  intros Hreach [v Hv].
  assert (Hfield : Py.no_space name = true).
  { eapply DirectoryFacts.session_names; [|exact Hreach|exact Hv].
    apply DirectoryFacts.initial_names. }
  split; [|split].
  - intros ->.
    rewrite (ManagerFacts.session_keeps_empty_free py_int manager_pid typed
               _ final (ManagerFacts.initial_no_empty_name manager_pid)
               Hreach) in Hv.
    discriminate.
  - now apply FieldFacts.no_space_single.
  - intros w Hw. now apply FieldFacts.split_space_word.
Qed.

Lemma registered_names_are_single_fields_witness :
  "A" ≠ ""
  ∧ Py.split_space "A" = ["A"]
  ∧ ∀ w, Py.no_space w = true →
         Py.split_space (w +:+ " " +:+ "A") = [w; "A"].
Proof.
  apply (registered_names_are_single_fields Py.dec_int 100
           [("createServer 1 3 A", ForkReturns 4242)]
           (<["A" := Pid 4242]> (initial_pids 100)) "A").
  - vm_compute. reflexivity.
  - exists (Pid 4242). vm_compute. reflexivity.
Defined.

(** ** The server a pass becomes *)

(** X19: a pass turns into a server only in the child of the fork of
    line 50 (the fork returned 0), for a name that is not in the
    directory.  That server starts at line 60 without replicants, and
    because of the test of line 410 its expected count stays between
    its minimum and maximum after any interleaving of loop steps and
    signals. *)
Theorem forked_server_keeps_its_bounds py_int manager_pid fk
    (server_pids : gmap string handle) (command : string)
    (c : controller) (out : list event) (acts : list action) :
  command_pass py_int manager_pid fk server_pids command = Serving c out →
  fk = ForkReturns 0
  ∧ server_pids !! server_name c = None
  ∧ server_processes c = [] ∧ at_ c = LoopTop
  ∧ server_minimum_number c <= number_of_active_processes (run acts c)
    <= server_maximum_number c.
Proof.
  unfold command_pass.
  destruct (Py.contains "createServer" command).
  2:{ unfold abortServer_branch, process_branch, relay.
      repeat match goal with
             | |- context [if ?b then _ else _] => destruct b
             | |- context [match ?x with _ => _ end] => destruct x
             end; discriminate. }
  unfold createServer_branch.
  destruct (Py.split_space command) as [|w0 [|w1 [|w2 [|w3 [|w4 ws]]]]];
    try discriminate.
  destruct (py_int w1) as [minimum|]; [|discriminate].
  destruct (py_int w2) as [maximum|]; [|discriminate].
  unfold createServer.
  destruct (Py.is_empty w3); [discriminate|].
  destruct (server_pids !! w3) eqn:Hfresh; [discriminate|].
  destruct (Z.geb_spec maximum minimum) as [Hle|]; [|discriminate].
  unfold create_server. destruct fk as [pid|]; [|discriminate].
  destruct (Z.eqb_spec pid 0) as [->|]; [|destruct (pid >? 0); discriminate].
  intros [= <- _].
  split; [reflexivity|]. split; [exact Hfresh|].
  split; [reflexivity|]. split; [reflexivity|].
  assert (Hstart : minimum <= maximum) by lia.
  pose proof (ServerFacts.run_within minimum maximum acts _
                (ServerFacts.start_within minimum maximum w3 Hstart))
    as (_ & _ & Hin).
  exact Hin.
Qed.

Lemma forked_server_keeps_its_bounds_witness :
  ForkReturns 0 = ForkReturns 0
  ∧ initial_pids 100 !! server_name (start 1 3 "A") = None
  ∧ server_processes (start 1 3 "A") = [] ∧ at_ (start 1 3 "A") = LoopTop
  ∧ server_minimum_number (start 1 3 "A")
    <= number_of_active_processes
         (run [Tick ForkOSError; Signal SIGUSR1 []; Signal SIGUSR2 []]
            (start 1 3 "A"))
    <= server_maximum_number (start 1 3 "A").
Proof.
  apply (forked_server_keeps_its_bounds Py.dec_int 100 (ForkReturns 0)
           (initial_pids 100) "createServer 1 3 A" (start 1 3 "A")
           [EPrint (MsgStarting "A" 1 3); EFork 0]
           [Tick ForkOSError; Signal SIGUSR1 []; Signal SIGUSR2 []]).
  vm_compute. reflexivity.
Defined.

(** X20: a server started with a negative minimum (the range test of
    lines 405-407 lets it through) does not serve: the test of line 78
    fails at once, the shrink loop pops from the empty list, and the
    server ends with IndexError before it forks or kills anything. *)
Theorem server_with_negative_minimum_raises (minimum maximum : Z)
    (name : string) (acts : list action) :
  minimum < 0 →
  let c := run (idle_ticks 3) (start minimum maximum name) in
  at_ c = Exited (ByException IndexError)
  ∧ log c = [EPrint (MsgServerStarted name)]
  ∧ server_processes c = []
  ∧ run acts c = c.
Proof.
  intros Hneg.
  assert (Hrun : run (idle_ticks 3) (start minimum maximum name)
                 = goto (Exited (ByException IndexError))
                     (register_handlers (start minimum maximum name))).
  { change (run (idle_ticks 3) (start minimum maximum name))
      with (step ForkOSError (step ForkOSError
              (goto GrowTest (register_handlers
                                (start minimum maximum name))))).
    unfold step at 2.
    change (at_ (goto GrowTest (register_handlers
                                  (start minimum maximum name))))
      with GrowTest.
    change (len (goto GrowTest (register_handlers
                                  (start minimum maximum name)))) with 0.
    change (number_of_active_processes
              (goto GrowTest (register_handlers
                                (start minimum maximum name))))
      with minimum.
    destruct (Z.leb_spec 0 minimum) as [Hge|_]; [lia|].
    unfold step.
    change (at_ (goto ShrinkTest
                   (goto GrowTest (register_handlers
                                     (start minimum maximum name)))))
      with ShrinkTest.
    change (len (goto ShrinkTest
                   (goto GrowTest (register_handlers
                                     (start minimum maximum name)))))
      with 0.
    change (number_of_active_processes
              (goto ShrinkTest
                 (goto GrowTest (register_handlers
                                   (start minimum maximum name)))))
      with minimum.
    destruct (Z.gtb_spec 0 minimum) as [_|Hge]; [reflexivity | lia]. }
  cbv zeta. rewrite Hrun.
  split; [reflexivity|]. split; [reflexivity|]. split; [reflexivity|].
  now apply ServerFacts.exited_run with (why := ByException IndexError).
Qed.

Lemma server_with_negative_minimum_raises_witness :
  let c := run (idle_ticks 3) (start (-1) 5 "B") in
  at_ c = Exited (ByException IndexError)
  ∧ log c = [EPrint (MsgServerStarted "B")]
  ∧ server_processes c = []
  ∧ run [Signal SIGUSR1 []; Tick (ForkReturns 11)] c = c.
Proof.
  apply (server_with_negative_minimum_raises (-1) 5 "B"
           [Signal SIGUSR1 []; Tick (ForkReturns 11)]).
  lia.
Defined.

(** * Crashes after the first one *)

Module DeafFacts.

Lemma step_deaf fk c :
  deaf c →
  deaf (step fk c)
  ∧ ∃ added, server_processes (step fk c) = server_processes c ++ added.
Proof.
  destruct c as [nm mx smin smax cnt ps sg hr l lg].
  unfold deaf, step, len. cbn. intros (Hs & Hm & Hc & Hat).
  destruct l; cbn in *; try contradiction.
  - destruct (Z.leb_spec (Z.of_nat (length ps)) cnt); [|lia]. cbn.
    split; [auto|]. exists []. now rewrite app_nil_r.
  - destruct (Z.eqb_spec (Z.of_nat (length ps)) cnt); cbn.
    + split; [auto|]. exists []. now rewrite app_nil_r.
    + split; [repeat split; auto; lia|]. exists []. now rewrite app_nil_r.
  - destruct (Z.ltb_spec (Z.of_nat (length ps)) mx); [|lia].
    destruct fk as [pid2|]; cbn.
    + split; [auto|]. exists []. now rewrite app_nil_r.
    + split; [repeat split; auto; lia|]. exists []. now rewrite app_nil_r.
  - destruct (Z.eqb_spec pid2 0); cbn.
    + split; [auto|]. now exists [pid2].
    + split; [|now exists [pid2]]. repeat split; auto.
      rewrite length_app. cbn. lia.
  - split; [auto|]. exists []. now rewrite app_nil_r.
  - split; [auto|]. exists []. now rewrite app_nil_r.
Qed.

Lemma act_deaf a c :
  keeps_count a = true →
  deaf c →
  deaf (act c a)
  ∧ ∃ added, server_processes (act c a) = server_processes c ++ added.
Proof.
  destruct a as [fk|s zombies| | | |]; try discriminate;
    [intros _; apply step_deaf|].
  intros Hs Hdeaf.
  assert (Hsame : ∀ c', c' = c →
            deaf c' ∧ ∃ added, server_processes c' = server_processes c ++ added).
  { intros c' ->. split; [exact Hdeaf|]. exists []. now rewrite app_nil_r. }
  destruct s; try discriminate; cbn [act].
  - apply Hsame. apply ignored_sigchld_changes_nothing. apply Hdeaf.
  - clear Hsame. revert Hdeaf.
    destruct c as [nm mx smin smax cnt ps sg hr l lg].
    unfold deaf, deliver, increment_active_processes, len. cbn.
    intros (Hsg & Hm & Hc & Hat).
    assert (Hnil : ps = ps ++ []) by now rewrite app_nil_r.
    destruct l; cbn in *; try contradiction;
      (destruct hr; cbn;
       [ destruct (Z.gtb_spec (cnt + 1) smax); cbn;
         (split; [repeat split; auto; lia | exists []; exact Hnil])
       | split; [repeat split; auto | exists []; exact Hnil] ]).
Qed.

Lemma run_deaf acts : ∀ c,
  forallb keeps_count acts = true →
  deaf c →
  deaf (run acts c)
  ∧ ∃ added, server_processes (run acts c) = server_processes c ++ added.
Proof.
  unfold run. induction acts as [|a acts IH]; intros c Hacts Hdeaf; simpl.
  - split; [exact Hdeaf|]. exists []. now rewrite app_nil_r.
  - simpl in Hacts. apply andb_true_iff in Hacts as [Ha Hacts].
    destruct (act_deaf a c Ha Hdeaf) as [Hdeaf1 [added1 Hadd1]].
    destruct (IH (act c a) Hacts Hdeaf1) as [Hdeaf2 [added2 Hadd2]].
    split; [exact Hdeaf2|]. exists (added1 ++ added2).
    now rewrite Hadd2, Hadd1, <- app_assoc.
Qed.

(** The handler that ran during the sleep of line 85 leaves the server
    deaf. *)
Lemma handler_deaf zombies c :
  at_ c = SettleTest →
  len c = number_of_active_processes c →
  number_of_active_processes c <= maximum_number_of_processes c →
  server_maximum_number c = maximum_number_of_processes c →
  deaf (abnormal_child_exit_handler zombies c).
Proof.
  intros Hat Hlen Hc Hm.
  destruct (CapFacts.handler_shape zombies c) as (Hle & Hat' & Hmax).
  pose proof (ServerFacts.handler_globals zombies c) as Hg.
  pose proof (handler_leaves_sigchld_ignored zombies c) as Hsig.
  remember (abnormal_child_exit_handler zombies c) as h eqn:Eh. clear Eh.
  unfold globals in Hg. injection Hg as Hmin Hsmax Hcnt.
  unfold deaf. rewrite Hsig, Hsmax, Hcnt, Hmax, Hat', Hat.
  repeat split; auto. unfold len in *. lia.
Qed.

End DeafFacts.

(** X21: only the first crash of a settled period is noticed.  The
    SIGCHLD handler sets SIGCHLD to SIG_IGN (line 172) and only line 62
    registers it again, which the loop reaches through the shrink loop
    alone.  So after the handler ran in a settled server, whatever loop
    steps, SIGCHLD and SIGUSR1 signals follow and whatever [ps] shows,
    SIGCHLD stays ignored and no stored pid is removed any more: the
    list only grows at its end. *)
Theorem later_crashes_go_unnoticed (zombies : list Z) (c : controller)
    (acts : list action) :
  at_ c = SettleTest →
  sigchld c = SigHandler →
  len c = number_of_active_processes c →
  number_of_active_processes c <= maximum_number_of_processes c →
  server_maximum_number c = maximum_number_of_processes c →
  forallb keeps_count acts = true →
  let reaped := deliver zombies SIGCHLD c in
  let c' := run acts reaped in
  sigchld c' = SigIgnore
  ∧ (∃ added, server_processes c' = server_processes reaped ++ added)
  ∧ ∀ zombies', deliver zombies' SIGCHLD c' = c'.
Proof.
  intros Hat Hsig Hlen Hc Hm Hacts. cbv zeta.
  assert (Hd : deliver zombies SIGCHLD c
               = abnormal_child_exit_handler zombies c).
  { unfold deliver. now rewrite Hat, Hsig. }
  rewrite Hd.
  destruct (DeafFacts.run_deaf acts (abnormal_child_exit_handler zombies c)
              Hacts (DeafFacts.handler_deaf zombies c Hat Hlen Hc Hm))
    as [Hdeaf Hadd].
  split; [apply Hdeaf|]. split; [exact Hadd|].
  intros zombies'. apply ignored_sigchld_changes_nothing. apply Hdeaf.
Qed.

Lemma later_crashes_go_unnoticed_witness :
  let c := run (idle_ticks 1 ++ flat_map spawn_ticks [11; 12]
                ++ idle_ticks 1) (start 2 3 "A") in
  let reaped := deliver [11] SIGCHLD c in
  let c' := run (spawn_ticks 13 ++ [Signal SIGCHLD [12; 13];
                                    Tick ForkOSError]) reaped in
  sigchld c' = SigIgnore
  ∧ (∃ added, server_processes c' = server_processes reaped ++ added)
  ∧ ∀ zombies', deliver zombies' SIGCHLD c' = c'.
Proof.
  apply (later_crashes_go_unnoticed [11]
           (run (idle_ticks 1 ++ flat_map spawn_ticks [11; 12]
                 ++ idle_ticks 1) (start 2 3 "A"))
           (spawn_ticks 13 ++ [Signal SIGCHLD [12; 13]; Tick ForkOSError])).
  - reflexivity.
  - reflexivity.
  - reflexivity.
  - vm_compute. discriminate.
  - reflexivity.
  - reflexivity.
Defined.
